(** * Holis "Base Impacts" pipeline: a shallow embedding of [data_processing.py]

    The pipeline reads three spreadsheet exports, normalises the two
    transposed ones, reshapes the wide impact matrix into a long fact
    table and joins the three with two left merges.

    The Python code is written against pandas.  The pandas operations it
    calls are modelled here on plain data, each one next to the call it
    stands for, with the behaviour of pandas 2:
    - a cell or a label is a [value]: text, a number or a missing value;
      Python's [bool], [datetime] and the infinite floats are not modelled;
    - a character is a code point below 256 (the impacts file is decoded
      as latin-1), and [Py.isspace] is Python's [str.isspace] on that range;
    - a finite number is the rational it denotes, so that  1 == 1.0  as in
      Python; parsing text into a float and printing a number are taken
      from the environment ([PandasEnv]), like the two file readers;
    - an operation that raises returns [Raise] with the exception;
    - a frame holds labels and cells, not dtypes.  Where pandas decides on
      a dtype ([.str], the key check of [merge]) the model decides on the
      dtype pandas infers from the cells: object for labels or a column
      that hold text, a numeric dtype otherwise ([holds_text]); inside the
      two sheet loaders the dtype is that of the transposed sheet;
    - pandas stores a number of a column without text as a float64, which
      changes an integer beyond 2^53; the model keeps every number as it
      is, and the statements that follow a number through such a column
      are made for the numbers float64 holds exactly ([float64_safe]). *)

From Stdlib Require Import Ascii String QArith Qcanon.
From stdpp Require Import base decidable numbers list strings.

Local Open Scope string_scope.
Local Open Scope list_scope.
Local Open Scope nat_scope.

(** ** Python strings *)

Module Py.

(** [str.isspace] for one character below code point 256: TAB..CR, the
    separators FS..US, SPACE, NEL (0x85) and NBSP (0xA0). *)
Definition isspace (c : ascii) : bool :=
  let n := nat_of_ascii c in
  (((9 <=? n) && (n <=? 13)) || ((28 <=? n) && (n <=? 32)) || (n =? 133) || (n =? 160))%nat.

Fixpoint lstrip_chars (l : list ascii) : list ascii :=
  match l with
  | c :: l' => if isspace c then lstrip_chars l' else l
  | [] => []
  end.

Definition rstrip_chars (l : list ascii) : list ascii :=
  rev (lstrip_chars (rev l)).

Definition strip_chars (l : list ascii) : list ascii :=
  rstrip_chars (lstrip_chars l).

(** [s.strip()] *)
Definition strip (s : string) : string :=
  string_of_list_ascii (strip_chars (list_ascii_of_string s)).

(** No whitespace at either end. *)
Definition starts_clean (l : list ascii) : bool :=
  match l with
  | c :: _ => negb (isspace c)
  | [] => true
  end.

Definition trimmed (s : string) : bool :=
  let l := list_ascii_of_string s in
  starts_clean l && starts_clean (rev l).

End Py.

(** ** Values, frames, exceptions *)

Inductive value : Type :=
| VStr (s : string)
| VNum (q : Qc)
| VNaN.

#[global] Instance value_eq_dec : EqDecision value.
Proof. solve_decision. Defined.

Definition is_str (v : value) : bool :=
  match v with VStr _ => true | _ => false end.

Definition is_num (v : value) : bool :=
  match v with VNum _ => true | _ => false end.

(** A number label  0, 1, 2, ...  *)
Definition VInt (n : nat) : value := VNum (Q2Qc (inject_Z (Z.of_nat n))).

(** [pd.DataFrame]: row labels, column labels and the cells, row by row. *)
Record DataFrame : Type := mkDataFrame {
  index : list value;
  columns : list value;
  data : list (list value)
}.

(** [RangeIndex(n)] *)
Definition RangeIndex (n : nat) : list value := VInt <$> seq 0 n.

(** Every row has one cell per column label and one row label. *)
Definition well_formed (df : DataFrame) : Prop :=
  length (index df) = length (data df) ∧
  Forall (λ row, length row = length (columns df)) (data df).

(** The exceptions that reach the caller. *)
Inductive exn : Type :=
| FileNotFoundError (path : string)
| ReaderError (cls msg : string)
| IndexError
| KeyError (label : value)
| KeyErrorLabels (labels : list value)
| AttributeError
| ValueError
| MergeError.

(** The class name of an exception, as [type(e).__name__]. *)
Definition exn_class (e : exn) : string :=
  match e with
  | FileNotFoundError _ => "FileNotFoundError"
  | ReaderError cls _ => cls
  | IndexError => "IndexError"
  | KeyError _ => "KeyError"
  | KeyErrorLabels _ => "KeyError"
  | AttributeError => "AttributeError"
  | ValueError => "ValueError"
  | MergeError => "MergeError"
  end.

Inductive result (A : Type) : Type :=
| Ok (a : A)
| Raise (e : exn).
Arguments Ok {A} a.
Arguments Raise {A} e.

(** Sequencing: the first exception raised ends the computation. *)
Definition bind {A B : Type} (m : result A) (k : A → result B) : result B :=
  match m with
  | Ok a => k a
  | Raise e => Raise e
  end.

Notation "x <- m ;; k" := (bind m (λ x, k))
  (at level 100, m at next level, right associativity).

(** What the run takes from outside [data_processing.py]. *)
Class PandasEnv : Type := {
  (** the float parser behind [pd.to_numeric]: [None] when the text is
      not a number *)
  parse_float : string → option Qc;
  (** [str(x)] for a number *)
  str_of_num : Qc → string;
  (** [pd.read_excel(filepath)] *)
  read_excel : string → result DataFrame;
  (** [pd.read_csv(filepath, encoding=..., sep=...)] *)
  read_csv : string → string → string → result DataFrame
}.

(** ** The pandas operations the pipeline calls *)

Definition cell (row : list value) (j : nat) : value := default VNaN (row !! j).

(** The positions of the columns that carry the label [key]. *)
Definition locs (labels : list value) (key : value) : list nat :=
  filter (λ j, labels !! j = Some key) (seq 0 (length labels)).

(** [Index.get_loc] for a label that must name one column: a missing label
    is a [KeyError], a label carried by several columns is rejected. *)
Definition get_loc (labels : list value) (key : value) : result nat :=
  match locs labels key with
  | [] => Raise (KeyError key)
  | [j] => Ok j
  | _ => Raise ValueError
  end.

(** The cells of column [j], top to bottom. *)
Definition column (j : nat) (df : DataFrame) : list value :=
  (λ row, cell row j) <$> data df.

(** [df[key]] for a label that names one column. *)
Definition getitem (df : DataFrame) (key : value) : result (list value) :=
  j <- get_loc (columns df) key ;; Ok (column j df).

(** [df[key] = vals]: every column labelled [key] takes the new cells; a
    label that is not there yet adds a column at the end. *)
Definition setitem (df : DataFrame) (key : value) (vals : list value) : DataFrame :=
  match locs (columns df) key with
  | [] => {| index := index df;
             columns := columns df ++ [key];
             data := zip_with (λ row v, row ++ [v]) (data df) vals |}
  | js => {| index := index df;
             columns := columns df;
             data := zip_with (λ row v, foldr (λ j r, <[j:=v]> r) row js) (data df) vals |}
  end.

(** [df.T] *)
Definition T (df : DataFrame) : DataFrame :=
  {| index := columns df;
     columns := index df;
     data := (λ j, column j df) <$> seq 0 (length (columns df)) |}.

(** [df.iloc[i]], the cells of row [i]. *)
Definition iloc (df : DataFrame) (i : nat) : result (list value) :=
  match data df !! i with
  | Some row => Ok row
  | None => Raise IndexError
  end.

(** [df.columns = labels]; pandas checks the length. *)
Definition set_columns (df : DataFrame) (labels : list value) : result DataFrame :=
  if decide (length labels = length (columns df))
  then Ok {| index := index df; columns := labels; data := data df |}
  else Raise ValueError.

(** [df[k:]] and [df.iloc[k:]]: the rows from position [k] on, labels kept. *)
Definition rows_from (k : nat) (df : DataFrame) : DataFrame :=
  {| index := drop k (index df); columns := columns df; data := drop k (data df) |}.

(** [df.reset_index(drop=True)] *)
Definition reset_index (df : DataFrame) : DataFrame :=
  {| index := RangeIndex (length (data df)); columns := columns df; data := data df |}.

(** Whether labels or cells hold text.  Labels or a column that hold text
    have the dtype object, whatever built them. *)
Definition holds_text (vals : list value) : bool := existsb is_str vals.

(** The [.str] accessor of a Series or an Index ("Can only use .str
    accessor with string values").  It refuses every numeric dtype, also
    when the values are all missing or there are none.  With the dtype
    object it refuses values that are numbers only: text, missing values,
    or text mixed with numbers are accepted. *)
Definition str_accessor (object_dtype : bool) (vals : list value) : result (list value) :=
  if object_dtype && (existsb is_str vals || negb (existsb is_num vals)) then Ok vals
  else Raise AttributeError.

(** One element under [.str.strip()]: text is trimmed, anything that is
    not text comes out missing. *)
Definition str_strip1 (v : value) : value :=
  match v with
  | VStr s => VStr (Py.strip s)
  | _ => VNaN
  end.

(** [x.str.strip()], for [x] of dtype object or not. *)
Definition str_strip (object_dtype : bool) (vals : list value) : result (list value) :=
  vals <- str_accessor object_dtype vals ;; Ok (str_strip1 <$> vals).

(** [lambda x: x.strip() if isinstance(x, str) else x] *)
Definition strip_if_str (x : value) : value :=
  match x with
  | VStr s => VStr (Py.strip s)
  | _ => x
  end.

(** [df[col] = df[col].apply(f)] for a function [f] of one cell.  When one
    column carries the label, [df[col]] is a Series and [f] maps its cells.
    When several do, [df[col]] is a sub-frame, [DataFrame.apply] hands [f]
    whole columns, which the lambda above returns as they are (a column is
    not a [str]): nothing changes.  The loop takes [col] from the frame's
    own labels, so some column carries it.  [Series.apply] infers the
    dtype of its result again: a column that holds no text comes back
    numeric, each number the same number when float64 holds it
    ([float64_safe]); the statements about number cells are made for
    such numbers. *)
Definition apply_setitem (f : value → value) (df : DataFrame) (col : value) : DataFrame :=
  match locs (columns df) col with
  | [j] => setitem df col (f <$> column j df)
  | _ => df
  end.

(** [df.select_dtypes(include=['object']).columns].  The frame comes out of
    [df.T] of a sheet that mixes text and numbers, so every column is of
    dtype object; where a column is not, it holds no text and the pass
    below leaves it as it is. *)
Definition select_dtypes_object_columns (df : DataFrame) : list value := columns df.

(** [mapper.get(c)] for the dict of a rename, written as its items. *)
Fixpoint dict_get (mapper : list (value * value)) (c : value) : option value :=
  match mapper with
  | [] => None
  | (k, v) :: mapper' => if decide (k = c) then Some v else dict_get mapper' c
  end.

(** [df.rename(columns=mapper)]: labels that are not keys stay. *)
Definition rename_columns (mapper : list (value * value)) (df : DataFrame) : DataFrame :=
  {| index := index df;
     columns := (λ c, default c (dict_get mapper c)) <$> columns df;
     data := data df |}.

(** The positions of the labels [keys] in a header with distinct labels,
    a [KeyError] for one that is missing.  ([read_csv] gives distinct
    labels; for a label carried by several columns pandas takes them all,
    and the first stands for them here.) *)
Fixpoint get_indexer (labels keys : list value) : result (list nat) :=
  match keys with
  | [] => Ok []
  | key :: keys' =>
      match head (locs labels key) with
      | None => Raise (KeyError key)
      | Some j => js <- get_indexer labels keys' ;; Ok (j :: js)
      end
  end.

(** [frame.melt(id_vars, value_vars, var_name, value_name)]: one block of
    rows per value column, in column order; within a block one row per
    source row, holding the identifier cells, the value column's label
    and the cell.  Identifier or value labels that the frame does not
    carry raise a [KeyError] whose message names them all.  The rows are
    those of pandas for a frame with distinct labels. *)
Definition melt (frame : DataFrame) (id_vars value_vars : list value)
    (var_name value_name : value) : result DataFrame :=
  if decide (value_name ∈ columns frame) then Raise ValueError else
  _ <- match filter (λ key, key ∉ columns frame) id_vars with
       | [] => Ok tt
       | missing => Raise (KeyErrorLabels missing)
       end ;;
  _ <- match filter (λ key, key ∉ columns frame) value_vars with
       | [] => Ok tt
       | missing => Raise (KeyErrorLabels missing)
       end ;;
  id_locs <- get_indexer (columns frame) id_vars ;;
  value_locs <- get_indexer (columns frame) value_vars ;;
  let rows :=
    zip value_vars value_locs ≫= λ '(col, j),
      (λ row, ((cell row) <$> id_locs) ++ [col; cell row j]) <$> data frame in
  Ok {| index := RangeIndex (length rows);
        columns := id_vars ++ [var_name; value_name];
        data := rows |}.

(** One element under [pd.to_numeric(..., errors='coerce')]: text is
    parsed, a number or a missing value is kept.  pandas returns the
    column as float64 unless every cell is an integer, so a number is
    kept exactly when float64 holds it ([float64_safe]); the statements
    about number cells are made for such numbers. *)
Definition to_numeric1 `{PandasEnv} (v : value) : value :=
  match v with
  | VStr s => match parse_float s with Some q => VNum q | None => VNaN end
  | _ => v
  end.

Definition to_numeric_coerce `{PandasEnv} (vals : list value) : list value :=
  to_numeric1 <$> vals.

(** [f"{x}"] for a label. *)
Definition label_str `{PandasEnv} (x : value) : string :=
  match x with
  | VStr s => s
  | VNum q => str_of_num q
  | VNaN => "nan"
  end.

(** [Index.duplicated()]: true at every occurrence after the first. *)
Definition duplicated (l : list value) : list bool :=
  imap (λ j x, bool_decide (x ∈ take j l)) l.

(** pandas' [_items_overlap_with_suffix]: labels present on both sides
    get their side's suffix; a duplicate label that the suffixes create is
    a [MergeError]. *)
Definition items_overlap_with_suffix `{PandasEnv} (left right : list value)
    (lsuffix rsuffix : string) : result (list value * list value) :=
  let to_rename := filter (λ x, x ∈ right) left in
  match to_rename with
  | [] => Ok (left, right)
  | _ =>
    if bool_decide (lsuffix = "" ∧ rsuffix = "") then Raise ValueError else
    let renamer (suffix : string) (x : value) : value :=
      if decide (x ∈ to_rename) then VStr (label_str x +:+ suffix) else x in
    let llabels := renamer lsuffix <$> left in
    let rlabels := renamer rsuffix <$> right in
    let created orig renamed :=
      existsb (λ p : bool * bool, p.1 && negb p.2) (zip (duplicated renamed) (duplicated orig)) in
    if created left llabels || created right rlabels then Raise MergeError
    else Ok (llabels, rlabels)
  end.

(** The right rows whose key cell equals [key]; missing keys equal each
    other. *)
Definition matching (rk : nat) (key : value) (right_rows : list (list value))
    : list (list value) :=
  filter (λ rrow, cell rrow rk = key) right_rows.

(** What a left merge puts to the right of a left row with key [key]: the
    cells of each matching right row, in the right frame's order, or one
    run of missing values when no right row matches. *)
Definition right_parts (rk width : nat) (right_rows : list (list value)) (key : value)
    : list (list value) :=
  match matching rk key right_rows with
  | [] => [replicate width VNaN]
  | matches => matches
  end.

Definition join_row (lk rk width : nat) (right_rows : list (list value))
    (lrow : list value) : list (list value) :=
  (λ part, lrow ++ part) <$> right_parts rk width right_rows (cell lrow lk).

(** A number without fractional part: an [int] where pandas keeps Python
    objects. *)
Definition is_int (v : value) : bool :=
  match v with
  | VNum q => bool_decide (Qden q = 1%positive)
  | _ => false
  end.

(** The check [merge] makes on the dtypes of its two key columns
    ([_maybe_coerce_merge_keys]).  Two columns of dtype object pass, and
    two numeric columns; a column that has no cell passes against one that
    has.  A column of dtype object whose cells are text, or text with
    floats or missing values, does not pass against a numeric column. *)
Definition merge_keys_clash (lk rk : list value) : bool :=
  let text_keys vals := holds_text vals && negb (existsb is_int vals) in
  let numeric_keys vals := negb (holds_text vals) && bool_decide (vals ≠ []) in
  (text_keys lk && numeric_keys rk) || (numeric_keys lk && text_keys rk).

(** [left.merge(right, left_on=..., right_on=..., how='left', suffixes=...)]:
    the left rows in their order, each joined as above.  The key of the
    right frame is looked up first, then that of the left; then the dtypes
    of the two key columns are checked ([ValueError]), then the labels. *)
Definition merge `{PandasEnv} (left right : DataFrame) (left_on right_on : value)
    (suffixes : string * string) : result DataFrame :=
  rk <- get_loc (columns right) right_on ;;
  lk <- get_loc (columns left) left_on ;;
  _ <- (if merge_keys_clash (column lk left) (column rk right) then Raise ValueError
        else Ok tt) ;;
  labels <- items_overlap_with_suffix (columns left) (columns right) suffixes.1 suffixes.2 ;;
  let rows := data left ≫= join_row lk rk (length (columns right)) (data right) in
  Ok {| index := RangeIndex (length rows);
        columns := labels.1 ++ labels.2;
        data := rows |}.

(** ** The functions of [data_processing.py] *)

(** Lines 22-32 of [load_and_clean_metadata], and the same statements at
    lines 84-94 of [load_and_clean_indicators]: transpose, take row 0 as
    the header, drop rows 0 and 1, renumber the rows, trim the labels.
    [read_excel] gives a column the dtype object when it holds text and a
    numeric dtype otherwise; the transposed sheet, its row 0 and the
    labels made of it have the dtype object when some column of the sheet
    has, and float64 otherwise (also when the sheet has no row). *)
Definition normalize_header (df : DataFrame) : result DataFrame :=
  let object_dtype := existsb holds_text (data df) in
  let df_transposed := T df in
  row0 <- iloc df_transposed 0 ;;
  df_transposed <- set_columns df_transposed row0 ;;
  let df_transposed := reset_index (rows_from 2 df_transposed) in
  labels <- str_strip object_dtype (columns df_transposed) ;;
  set_columns df_transposed labels.

(** Lines 34-36: [if 'UUID' in columns: df['UUID'] = df['UUID'].str.strip()].
    With several columns labelled UUID, [df['UUID']] is a frame and has no
    [.str].  The frame is the transposed sheet with a text label, so its
    columns have the dtype object. *)
Definition strip_uuid (df_transposed : DataFrame) : result DataFrame :=
  if decide (VStr "UUID" ∈ columns df_transposed) then
    match locs (columns df_transposed) (VStr "UUID") with
    | [j] =>
        stripped <- str_strip true (column j df_transposed) ;;
        Ok (setitem df_transposed (VStr "UUID") stripped)
    | _ => Raise AttributeError
    end
  else Ok df_transposed.

(** Lines 38-41 and 96-99: the loop over the object columns. *)
Definition strip_text_columns (df_transposed : DataFrame) : DataFrame :=
  let string_columns := select_dtypes_object_columns df_transposed in
  foldl (apply_setitem strip_if_str) df_transposed string_columns.

Definition load_and_clean_metadata `{PandasEnv} (filepath : string) : result DataFrame :=
  df <- read_excel filepath ;;
  df_transposed <- normalize_header df ;;
  df_transposed <- strip_uuid df_transposed ;;
  Ok (strip_text_columns df_transposed).

Definition load_and_clean_indicators `{PandasEnv} (filepath : string) : result DataFrame :=
  df <- read_excel filepath ;;
  df_transposed <- normalize_header df ;;
  Ok (strip_text_columns df_transposed).

(** The accented letters of the French headers, as latin-1 code points. *)
Definition e_acute : ascii := "233"%char.
Definition c_cedilla : ascii := "231"%char.

(** The dict passed to [rename] at lines 63-68. *)
Definition impacts_renames : list (value * value) :=
  [ (VStr ("UUID de la cat" +:+ String e_acute "gorie d'impacts"), VStr "impact_category_uuid");
    (VStr "Nom anglais", VStr "impact_name_en");
    (VStr ("Nom fran" +:+ String c_cedilla "ais"), VStr "impact_name_fr");
    (VStr ("Unit" +:+ String e_acute ""), VStr "unit") ].

Definition load_and_clean_impacts `{PandasEnv} (filepath : string) : result DataFrame :=
  df <- read_csv filepath "latin-1" ";" ;;
  let df := reset_index (rows_from 1 df) in
  let df := rename_columns impacts_renames df in
  Ok df.

Definition id_cols : list value :=
  [VStr "impact_category_uuid"; VStr "impact_name_en"; VStr "impact_name_fr"; VStr "unit"].

Definition value_cols (impacts_df : DataFrame) : list value :=
  filter (λ col, col ∉ id_cols) (columns impacts_df).

Definition reshape_impacts_to_long `{PandasEnv} (impacts_df : DataFrame) : result DataFrame :=
  let value_cols := value_cols impacts_df in
  df_long <- melt impacts_df id_cols value_cols (VStr "process_uuid") (VStr "impact_value") ;;
  impact_value <- getitem df_long (VStr "impact_value") ;;
  Ok (setitem df_long (VStr "impact_value") (to_numeric_coerce impact_value)).

(** What a call of [merge_all_data] leaves behind: the two metadata
    objects of the caller as they are after the call, and the value
    returned or the exception raised. *)
Record Outcome : Type := mkOutcome {
  metadata_after : DataFrame;
  indicators_after : DataFrame;
  returned : result DataFrame
}.

(** [merge_all_data].  Lines 139-140 assign to [.columns] of the two
    arguments, which are the caller's objects.  The labels of an argument
    have the dtype object when they hold text; labels without text are
    taken for the numeric Index pandas makes of them, which [.str]
    refuses. *)
Definition merge_all_data `{PandasEnv} (metadata_df impacts_long_df indicators_df : DataFrame)
    : Outcome :=
  match (labels <- str_strip (holds_text (columns metadata_df)) (columns metadata_df) ;;
         set_columns metadata_df labels) with
  | Raise e => mkOutcome metadata_df indicators_df (Raise e)
  | Ok metadata_df =>
    match (labels <- str_strip (holds_text (columns indicators_df)) (columns indicators_df) ;;
           set_columns indicators_df labels) with
    | Raise e => mkOutcome metadata_df indicators_df (Raise e)
    | Ok indicators_df =>
      mkOutcome metadata_df indicators_df
        (merged <- merge impacts_long_df indicators_df
                     (VStr "impact_category_uuid") (VStr "UUID") ("", "_indicator") ;;
         merge merged metadata_df (VStr "process_uuid") (VStr "UUID") ("", "_process"))
    end
  end.

(** ** [main]: the run of the pipeline, with what it prints and writes *)

(** What [main] does to the outside, in order.  The banner and step lines
    are fixed text (with symbols outside latin-1); they are recorded by the
    source line of their [print].  A line that shows a value is recorded
    with that value, and [df.to_csv(path, index=False)] with the path, the
    labels and the cells it is given: the row labels are not written, and
    the text of the file is not modelled. *)
Inductive effect : Type :=
| PrintText (line : nat)
| PrintShape (line : nat) (shape : nat * nat)
| PrintFrame (line : nat) (df : DataFrame)
| PrintCount (line : nat) (n : nat)
| ToCsv (path : string) (header : list value) (rows : list (list value)).

(** Where the files go: [None] when the write succeeds, the exception it
    raises otherwise (no directory, no permission). *)
Class CsvSink : Type := {
  write_csv : string → list value → list (list value) → option exn
}.

(** A computation that has effects and may raise: the effects so far, and
    the value or the exception. *)
Definition io (A : Type) : Type := (list effect * result A)%type.

Definition io_ret {A : Type} (a : A) : io A := ([], Ok a).

Definition io_bind {A B : Type} (m : io A) (k : A → io B) : io B :=
  match m with
  | (before, Ok a) => let '(after, r) := k a in (before ++ after, r)
  | (before, Raise e) => (before, Raise e)
  end.

Notation "x <~ m ;; k" := (io_bind m (λ x, k))
  (at level 100, m at next level, right associativity).
Notation "m ;;; k" := (io_bind m (λ _, k))
  (at level 100, right associativity).

(** [print(...)], on a standard output that takes every line: writing to
    it is assumed not to raise. *)
Definition emit (e : effect) : io unit := ([e], Ok tt).

(** A call of one of the functions above. *)
Definition call {A : Type} (r : result A) : io A := ([], r).

(** [df.to_csv(path, index=False)] *)
Definition to_csv `{CsvSink} (df : DataFrame) (path : string) : io unit :=
  match write_csv path (columns df) (data df) with
  | None => ([ToCsv path (columns df) (data df)], Ok tt)
  | Some e => ([], Raise e)
  end.

(** [df.shape] *)
Definition shape (df : DataFrame) : nat * nat := (length (data df), length (columns df)).

(** [df.head(n)] *)
Definition head_rows (n : nat) (df : DataFrame) : DataFrame :=
  {| index := take n (index df); columns := columns df; data := take n (data df) |}.

(** [series.nunique()]: the distinct values, missing ones left out. *)
Definition nunique (vals : list value) : nat :=
  length (remove_dups (filter (λ v, v ≠ VNaN) vals)).

(** [series.isna().sum()] *)
Definition isna_sum (vals : list value) : nat :=
  length (filter (λ v, v = VNaN) vals).

Definition metadata_path : string := "/mnt/user-data/uploads/BI_2_02__02_Procedes_Details.xlsx".
Definition impacts_path : string := "/mnt/user-data/uploads/BI_2_02__03_Procedes_Impacts.csv".
Definition indicators_path : string := "/mnt/user-data/uploads/BI_2_02__06_CatImpacts_Details.xlsx".

(** [main], lines 168-221.  After line 196 the names [metadata] and
    [indicators] stand for the objects [merge_all_data] has assigned to. *)
Definition main `{PandasEnv} `{CsvSink}
    : io (DataFrame * DataFrame * DataFrame * DataFrame) :=
  emit (PrintText 170) ;;;
  emit (PrintText 171) ;;;
  emit (PrintText 172) ;;;
  emit (PrintText 180) ;;;
  metadata <~ call (load_and_clean_metadata metadata_path) ;;
  impacts <~ call (load_and_clean_impacts impacts_path) ;;
  indicators <~ call (load_and_clean_indicators indicators_path) ;;
  emit (PrintShape 185 (shape metadata)) ;;;
  emit (PrintShape 186 (shape impacts)) ;;;
  emit (PrintShape 187 (shape indicators)) ;;;
  emit (PrintText 190) ;;;
  impacts_long <~ call (reshape_impacts_to_long impacts) ;;
  emit (PrintShape 192 (shape impacts_long)) ;;;
  emit (PrintText 195) ;;;
  let after := merge_all_data metadata impacts_long indicators in
  let metadata := metadata_after after in
  let indicators := indicators_after after in
  merged <~ call (returned after) ;;
  emit (PrintShape 197 (shape merged)) ;;;
  emit (PrintText 200) ;;;
  emit (PrintText 201) ;;;
  emit (PrintText 202) ;;;
  emit (PrintFrame 203 (head_rows 10 merged)) ;;;
  emit (PrintText 205) ;;;
  emit (PrintText 206) ;;;
  emit (PrintText 207) ;;;
  emit (PrintCount 208 (length (data merged))) ;;;
  process_uuid <~ call (getitem merged (VStr "process_uuid")) ;;
  emit (PrintCount 209 (nunique process_uuid)) ;;;
  impact_category_uuid <~ call (getitem merged (VStr "impact_category_uuid")) ;;
  emit (PrintCount 210 (nunique impact_category_uuid)) ;;;
  impact_value <~ call (getitem merged (VStr "impact_value")) ;;
  emit (PrintCount 211 (isna_sum impact_value)) ;;;
  emit (PrintText 214) ;;;
  to_csv metadata "/home/claude/metadata_clean.csv" ;;;
  to_csv impacts_long "/home/claude/impacts_long.csv" ;;;
  to_csv indicators "/home/claude/indicators_clean.csv" ;;;
  to_csv merged "/home/claude/merged_data.csv" ;;;
  emit (PrintText 219) ;;;
  io_ret (metadata, impacts_long, indicators, merged).

(** The files a run has written, in order. *)
Definition written (trace : list effect) : list (string * list value * list (list value)) :=
  omap (λ e, match e with ToCsv path header rows => Some (path, header, rows) | _ => None end)
       trace.

(** ** A small environment for the examples *)

Fixpoint digits_value (acc : N) (s : string) : option N :=
  match s with
  | EmptyString => Some acc
  | String c s' =>
      let n := N_of_ascii c in
      if ((48 <=? n) && (n <=? 57))%N then digits_value (10 * acc + (n - 48))%N s' else None
  end.

(** Stands in for the float parser in the examples: unsigned decimal
    integers, nothing else. *)
Definition parse_digits (s : string) : option Qc :=
  match s with
  | EmptyString => None
  | _ => (λ n, Q2Qc (inject_Z (Z.of_N n))) <$> digits_value 0 s
  end.

(** An environment whose readers know the listed files and raise
    [FileNotFoundError] for any other path, as pandas does.  No example
    prints a number label, so [str_of_num] is left constant. *)
Definition env_of_files (sheets tables : list (string * DataFrame)) : PandasEnv :=
  {| parse_float := parse_digits;
     str_of_num := λ _, "0";
     read_excel := λ path,
       match list_find (λ f, f.1 = path) sheets with
       | Some (_, f) => Ok f.2
       | None => Raise (FileNotFoundError path)
       end;
     read_csv := λ path _ _,
       match list_find (λ f, f.1 = path) tables with
       | Some (_, f) => Ok f.2
       | None => Raise (FileNotFoundError path)
       end |}.

(** ** Notions used in the statements *)

(** A text cell without whitespace at its ends; any other cell. *)
Definition trimmed_cell (v : value) : Prop :=
  match v with
  | VStr s => Py.trimmed s = true
  | _ => True
  end.

(** The labels of one side of a merge after the suffix policy: a label
    that also occurs on the other side is printed and given the suffix. *)
Definition suffixed `{PandasEnv} (suffix : string) (other labels : list value) : list value :=
  (λ x, if decide (x ∈ other) then VStr (label_str x +:+ suffix) else x) <$> labels.

(** The header of [left.merge(right, suffixes=('', suffix))]. *)
Definition merged_labels `{PandasEnv} (suffix : string) (left right : list value) : list value :=
  suffixed "" right left ++ suffixed suffix left right.

(** The header of the table [merge_all_data] returns, from the headers of
    its arguments. *)
Definition output_labels `{PandasEnv} (metadata_df impacts_long_df indicators_df : DataFrame)
    : list value :=
  merged_labels "_process"
    (merged_labels "_indicator" (columns impacts_long_df) (str_strip1 <$> columns indicators_df))
    (str_strip1 <$> columns metadata_df).

(** The rows of the output of [merge_all_data] that come from one fact
    row: one per pair of an indicator part and a process part, where [a]
    and [b] are the positions of the two keys in the fact table, [u] and
    [v] those of the UUID columns in the two metadata tables. *)
Definition joined_rows (a u b v : nat) (indicators_df metadata_df : DataFrame)
    (row : list value) : list (list value) :=
  right_parts u (length (columns indicators_df)) (data indicators_df) (cell row a) ≫=
    λ ipart : list value,
      (λ ppart : list value, row ++ ipart ++ ppart) <$>
        right_parts v (length (columns metadata_df)) (data metadata_df) (cell row b).

(** A label that [.str.strip()] leaves as it is: trimmed text, or missing. *)
Definition clean_label (v : value) : Prop :=
  match v with
  | VStr s => Py.trimmed s = true
  | VNum _ => False
  | VNaN => True
  end.

(** The label the rename of [load_and_clean_impacts] gives a column. *)
Definition renamed (c : value) : value := default c (dict_get impacts_renames c).

(** ** Further notions *)

(** A cell that a column of dtype float64 holds exactly: text and missing
    values aside, an integer of absolute value at most 2^53, or a number
    with a fractional part (in pandas such a number is a float already). *)
Definition float64_safe (v : value) : Prop :=
  match v with
  | VNum q => Qden q = 1%positive → (Z.abs (Qnum q) ≤ 2 ^ 53)%Z
  | _ => True
  end.

(** A cell after the generic text pass, against the cell before: the same
    cell, or its trimmed text. *)
Definition same_or_trimmed (before after : value) : Prop :=
  after = before ∨ after = strip_if_str before.

(** A join key as the loaders leave it: trimmed text, or missing. *)
Definition clean_key (v : value) : Prop :=
  match v with
  | VStr s => Py.trimmed s = true
  | VNum _ => False
  | VNaN => True
  end.

(** ** Sample inputs *)

Module Samples.

(** A process sheet as [read_excel] returns it: one row per attribute,
    the attribute name first, then the label column, then one column
    per process. *)
Definition metadata_sheet : DataFrame :=
  {| index := RangeIndex 3;
     columns := [VStr "Attribut"; VStr "Unnamed: 1"; VStr "Unnamed: 2"; VStr "Unnamed: 3"];
     data := [ [VStr " UUID "; VStr "UUID"; VStr " P1 "; VStr "P2"];
               [VStr "Nom"; VStr "Nom du flux"; VStr "Acier "; VStr "Bois"];
               [VStr "Version"; VStr "Version"; VInt 1; VNaN] ] |}.

Definition indicators_sheet : DataFrame :=
  {| index := RangeIndex 2;
     columns := [VStr "Attribut"; VStr "Unnamed: 1"; VStr "Unnamed: 2"; VStr "Unnamed: 3"];
     data := [ [VStr "UUID"; VStr "UUID"; VStr "I1"; VStr "I2 "];
               [VStr "Nom"; VStr "Nom"; VStr "Climat"; VStr "Energie"] ] |}.

(** The impacts file as [read_csv] returns it: the header, a descriptive
    row, two indicator rows; one cell is not a number. *)
Definition impacts_table : DataFrame :=
  {| index := RangeIndex 3;
     columns := [ VStr ("UUID de la cat" +:+ String e_acute "gorie d'impacts");
                  VStr "Nom anglais";
                  VStr ("Nom fran" +:+ String c_cedilla "ais");
                  VStr ("Unit" +:+ String e_acute "");
                  VStr "P1"; VStr "P3" ];
     data := [ [VStr "uuid"; VStr "name"; VStr "nom"; VStr "unit"; VStr "proc 1"; VStr "proc 3"];
               [VStr "I1"; VStr "Climate"; VStr "Climat"; VStr "kg"; VStr "12"; VStr "n/a"];
               [VStr "I2"; VStr "Energy"; VStr "Energie"; VStr "MJ"; VStr "7"; VStr "8"] ] |}.

Definition files : PandasEnv :=
  env_of_files [("procedes.xlsx", metadata_sheet); ("categories.xlsx", indicators_sheet)]
               [("impacts.csv", impacts_table)].

(** No file at all: no path resolves. *)
Definition no_files : PandasEnv := env_of_files [] [].

(** The cleaned tables of the files above. *)
Definition metadata_clean : DataFrame :=
  {| index := RangeIndex 2;
     columns := [VStr "UUID"; VStr "Nom"; VStr "Version"];
     data := [ [VStr "P1"; VStr "Acier"; VInt 1]; [VStr "P2"; VStr "Bois"; VNaN] ] |}.

Definition indicators_clean : DataFrame :=
  {| index := RangeIndex 2;
     columns := [VStr "UUID"; VStr "Nom"];
     data := [ [VStr "I1"; VStr "Climat"]; [VStr "I2"; VStr "Energie"] ] |}.

Definition impacts_clean : DataFrame :=
  {| index := RangeIndex 2;
     columns := id_cols ++ [VStr "P1"; VStr "P3"];
     data := [ [VStr "I1"; VStr "Climate"; VStr "Climat"; VStr "kg"; VStr "12"; VStr "n/a"];
               [VStr "I2"; VStr "Energy"; VStr "Energie"; VStr "MJ"; VStr "7"; VStr "8"] ] |}.

Definition impacts_long : DataFrame :=
  {| index := RangeIndex 4;
     columns := id_cols ++ [VStr "process_uuid"; VStr "impact_value"];
     data := [ [VStr "I1"; VStr "Climate"; VStr "Climat"; VStr "kg"; VStr "P1"; VInt 12];
               [VStr "I2"; VStr "Energy"; VStr "Energie"; VStr "MJ"; VStr "P1"; VInt 7];
               [VStr "I1"; VStr "Climate"; VStr "Climat"; VStr "kg"; VStr "P3"; VNaN];
               [VStr "I2"; VStr "Energy"; VStr "Energie"; VStr "MJ"; VStr "P3"; VInt 8] ] |}.

(** A process sheet in which one identifier is a number cell. *)
Definition numeric_uuid_sheet : DataFrame :=
  {| index := RangeIndex 2;
     columns := [VStr "Attribut"; VStr "Unnamed: 1"; VStr "Unnamed: 2"; VStr "Unnamed: 3"];
     data := [ [VStr "UUID"; VStr "UUID"; VStr " P1 "; VInt 7];
               [VStr "Nom"; VStr "Nom du flux"; VStr "Acier"; VStr "Bois"] ] |}.

Definition numeric_uuid_files : PandasEnv :=
  env_of_files [("procedes.xlsx", numeric_uuid_sheet)] [].

(** Process metadata in which two rows carry the key P1. *)
Definition metadata_duplicate_key : DataFrame :=
  {| index := RangeIndex 2;
     columns := [VStr "UUID"; VStr "Nom"];
     data := [ [VStr "P1"; VStr "Acier"]; [VStr "P1"; VStr "Acier v2"] ] |}.

(** Process metadata whose labels still carry whitespace. *)
Definition metadata_untrimmed_labels : DataFrame :=
  {| index := RangeIndex 2;
     columns := [VStr " UUID"; VStr "Nom "];
     data := [ [VStr "P1"; VStr "Acier"]; [VStr "P2"; VStr "Bois"] ] |}.

(** A sheet whose attribute names are a text, a number and a blank. *)
Definition numeric_name_sheet : DataFrame :=
  {| index := RangeIndex 3;
     columns := [VStr "Attribut"; VStr "Unnamed: 1"; VStr "Unnamed: 2"];
     data := [ [VStr " UUID"; VStr "UUID"; VStr "P1"];
               [VInt 2020; VStr "Annee"; VInt 3];
               [VNaN; VNaN; VStr "x"] ] |}.

(** A sheet that has rows but no column. *)
Definition no_column_sheet : DataFrame :=
  {| index := []; columns := []; data := [] |}.

(** A sheet that has a header row and no other row. *)
Definition header_only_sheet : DataFrame :=
  {| index := []; columns := [VStr "Attribut"; VStr "Unnamed: 1"]; data := [] |}.

(** A sheet whose attribute names are numbers only. *)
Definition numeric_names_only_sheet : DataFrame :=
  {| index := RangeIndex 2;
     columns := [VStr "Attribut"; VStr "Unnamed: 1"; VStr "Unnamed: 2"];
     data := [ [VInt 2020; VStr "a"; VStr "P1"];
               [VInt 2021; VStr "b"; VStr "P2"] ] |}.

Definition rejected_files : PandasEnv :=
  env_of_files [("vide.xlsx", no_column_sheet); ("annees.xlsx", numeric_names_only_sheet)] [].

(** A sheet with the attribute names "UUID" and " UUID ". *)
Definition two_uuid_names_sheet : DataFrame :=
  {| index := RangeIndex 2;
     columns := [VStr "Attribut"; VStr "Unnamed: 1"; VStr "Unnamed: 2"];
     data := [ [VStr "UUID"; VStr "UUID"; VStr "P1"];
               [VStr " UUID "; VStr "UUID"; VStr "P1 bis"] ] |}.

(** A sheet whose identifiers are numbers only. *)
Definition numeric_uuid_only_sheet : DataFrame :=
  {| index := RangeIndex 2;
     columns := [VStr "Attribut"; VStr "Unnamed: 1"; VStr "Unnamed: 2"; VStr "Unnamed: 3"];
     data := [ [VStr "UUID"; VStr "UUID"; VInt 1; VInt 2];
               [VStr "Nom"; VStr "Nom du flux"; VStr "Acier"; VStr "Bois"] ] |}.

Definition uuid_error_files : PandasEnv :=
  env_of_files [("deux.xlsx", two_uuid_names_sheet); ("nombres.xlsx", numeric_uuid_only_sheet)] [].

(** A long table whose process label kept a leading blank of the file. *)
Definition impacts_long_untrimmed : DataFrame :=
  {| index := RangeIndex 1;
     columns := id_cols ++ [VStr "process_uuid"; VStr "impact_value"];
     data := [ [VStr "I1"; VStr "Climate"; VStr "Climat"; VStr "kg"; VStr " P1"; VInt 12] ] |}.

(** A long table whose process identifier is a number. *)
Definition impacts_long_numeric_key : DataFrame :=
  {| index := RangeIndex 1;
     columns := id_cols ++ [VStr "process_uuid"; VStr "impact_value"];
     data := [ [VStr "I1"; VStr "Climate"; VStr "Climat"; VStr "kg"; VInt 7; VInt 12] ] |}.

(** The three files at the paths [main] reads. *)
Definition main_files : PandasEnv :=
  env_of_files [(metadata_path, metadata_sheet); (indicators_path, indicators_sheet)]
               [(impacts_path, impacts_table)].

(** The files of [main], with a process sheet whose identifiers are
    numbers only: the metadata loader raises. *)
Definition numeric_uuid_run : PandasEnv :=
  env_of_files [(metadata_path, numeric_uuid_only_sheet); (indicators_path, indicators_sheet)]
               [(impacts_path, impacts_table)].

(** A sink that takes every file, and one that has no directory to write to. *)
Definition any_sink : CsvSink := {| write_csv := λ _ _ _, None |}.
Definition no_sink : CsvSink :=
  {| write_csv := λ path _ _, Some (FileNotFoundError path) |}.

End Samples.

(** * Properties *)

(** Settles a decidable statement about concrete data by evaluating its
    decision procedure. *)
Ltac by_computation := apply (bool_decide_unpack _); vm_compute; exact I.

(** Settles [float64_safe] for the cells of a concrete table. *)
Ltac safe_cells := repeat constructor; try (vm_compute; by intros _ [=]).

(** ** Strings *)

Module PyFacts.
Import Py.

Lemma lstrip_chars_clean l : starts_clean (lstrip_chars l) = true.
Proof.
  induction l as [|c l IH]; simpl; [done|].
  destruct (isspace c) eqn:E; [done|]. simpl. by rewrite E.
Qed.

Lemma lstrip_chars_id l : starts_clean l = true → lstrip_chars l = l.
Proof.
  destruct l as [|c l]; simpl; [done|].
  destruct (isspace c); [done|done].
Qed.

(** A character that is not whitespace stops the scan from the left. *)
Lemma lstrip_chars_app l c l' :
  isspace c = false → lstrip_chars (l ++ c :: l') = lstrip_chars l ++ c :: l'.
Proof.
  intros Hc. induction l as [|x l IH]; simpl.
  - by rewrite Hc.
  - destruct (isspace x); [exact IH|done].
Qed.

Lemma lstrip_chars_decompose l :
  ∃ pre, l = pre ++ lstrip_chars l ∧ forallb isspace pre = true.
Proof.
  induction l as [|c l (pre & Hl & Hpre)]; simpl.
  - by exists [].
  - destruct (isspace c) eqn:E.
    + exists (c :: pre). simpl. rewrite E, Hpre. split; [by f_equal|done].
    + by exists [].
Qed.

Lemma rstrip_chars_decompose l :
  ∃ post, l = rstrip_chars l ++ post ∧ forallb isspace post = true.
Proof.
  unfold rstrip_chars.
  destruct (lstrip_chars_decompose (rev l)) as (pre & Hl & Hpre).
  exists (rev pre). split.
  - rewrite <- rev_app_distr, <- Hl. by rewrite rev_involutive.
  - rewrite forallb_forall in *. intros x Hx. apply Hpre. by apply in_rev.
Qed.

Lemma rstrip_chars_cons c l :
  isspace c = false → rstrip_chars (c :: l) = c :: rstrip_chars l.
Proof.
  intros Hc. unfold rstrip_chars. simpl.
  rewrite lstrip_chars_app by done.
  rewrite rev_app_distr. done.
Qed.

Lemma rstrip_chars_starts_clean l :
  starts_clean l = true → starts_clean (rstrip_chars l) = true.
Proof.
  destruct l as [|c l]; [done|]. simpl. intros Hc.
  rewrite rstrip_chars_cons; [done|]. by destruct (isspace c).
Qed.

Lemma strip_chars_clean l :
  starts_clean (strip_chars l) = true ∧ starts_clean (rev (strip_chars l)) = true.
Proof.
  unfold strip_chars. split.
  - apply rstrip_chars_starts_clean, lstrip_chars_clean.
  - unfold rstrip_chars. rewrite rev_involutive. apply lstrip_chars_clean.
Qed.

Lemma strip_chars_id l :
  starts_clean l = true → starts_clean (rev l) = true → strip_chars l = l.
Proof.
  intros H1 H2. unfold strip_chars, rstrip_chars.
  rewrite (lstrip_chars_id l) by done.
  rewrite (lstrip_chars_id (rev l)) by done.
  apply rev_involutive.
Qed.

(** [strip] removes whitespace from the two ends and nothing else. *)
Lemma strip_decompose s :
  ∃ pre post,
    list_ascii_of_string s = pre ++ list_ascii_of_string (strip s) ++ post ∧
    forallb isspace pre = true ∧ forallb isspace post = true ∧
    trimmed (strip s) = true.
Proof.
  unfold strip, trimmed. rewrite list_ascii_of_string_of_list_ascii.
  destruct (lstrip_chars_decompose (list_ascii_of_string s)) as (pre & Hl & Hpre).
  destruct (rstrip_chars_decompose (lstrip_chars (list_ascii_of_string s)))
    as (post & Hr & Hpost).
  exists pre, post. split_and!; [|done|done|].
  - unfold strip_chars. by rewrite <- Hr.
  - destruct (strip_chars_clean (list_ascii_of_string s)) as [-> ->]. done.
Qed.

Lemma strip_trimmed s : trimmed s = true → strip s = s.
Proof.
  unfold trimmed, strip. intros [H1 H2]%andb_prop.
  rewrite strip_chars_id by done. apply string_of_list_ascii_of_string.
Qed.

Lemma trimmed_strip s : trimmed (strip s) = true.
Proof. destruct (strip_decompose s) as (? & ? & ? & ? & ? & ?). done. Qed.

Lemma strip_idemp s : strip (strip s) = strip s.
Proof. apply strip_trimmed, trimmed_strip. Qed.

End PyFacts.

(** ** Columns by label and by position *)

Lemma filter_unique {A} (P : A → Prop) `{!∀ x, Decision (P x)} (l : list A) (j : A) :
  NoDup l → j ∈ l → P j → (∀ x, x ∈ l → P x → x = j) → filter P l = [j].
Proof.
  induction l as [|a l IH]; intros Hnd Hj HP Huniq.
  - by apply elem_of_nil in Hj.
  - apply NoDup_cons in Hnd as [Ha Hnd].
    assert (Hrest : ∀ x, x ∈ l → P x → x = j) by (intros x Hx; apply Huniq; by right).
    destruct (decide (P a)) as [HPa|HPa].
    + assert (a = j) as -> by (apply Huniq; [left|done]).
      rewrite filter_cons_True by done. f_equal.
      destruct (filter P l) as [|x l'] eqn:E; [done|].
      assert (Hx : x ∈ filter P l) by (rewrite E; left).
      apply list_elem_of_filter in Hx as [HPx Hx].
      rewrite (Hrest x Hx HPx) in Hx. done.
    + rewrite filter_cons_False by done.
      apply IH; [done| |done|done]. apply elem_of_cons in Hj as [->|]; done.
Qed.

Lemma elem_of_locs labels key j : j ∈ locs labels key ↔ labels !! j = Some key.
Proof.
  unfold locs. rewrite list_elem_of_filter, elem_of_seq. split; [by intros []|].
  intros Hj. split; [done|]. apply lookup_lt_Some in Hj. lia.
Qed.

Lemma locs_NoDup labels key j :
  NoDup labels → labels !! j = Some key → locs labels key = [j].
Proof.
  intros Hnd Hj. unfold locs. apply filter_unique.
  - apply NoDup_seq.
  - apply elem_of_seq. apply lookup_lt_Some in Hj. lia.
  - done.
  - intros x _ Hx. eapply NoDup_lookup; eauto.
Qed.



Lemma cell_cons_S x row j : cell (x :: row) (S j) = cell row j.
Proof. done. Qed.

Lemma insert_cell_alter (f : value → value) row j :
  <[j := f (cell row j)]> row = alter f j row.
Proof.
  revert j. induction row as [|x row IH]; intros [|j]; simpl; try done.
  rewrite cell_cons_S. f_equal. apply IH.
Qed.

Lemma insert_cell_id row j : <[j := cell row j]> row = row.
Proof.
  rewrite (insert_cell_alter (λ x, x)). revert j.
  induction row as [|x row IH]; intros [|j]; simpl; try done. f_equal. apply IH.
Qed.

Lemma zip_with_insert_column (f : value → value) j (rows : list (list value)) :
  zip_with (λ row v, <[j:=v]> row) rows ((λ row, f (cell row j)) <$> rows)
  = alter f j <$> rows.
Proof.
  induction rows as [|row rows IH]; simpl; [done|].
  rewrite insert_cell_alter. f_equal. apply IH.
Qed.

(** Assigning [f] of a column to the one column that carries the label. *)
Lemma setitem_fmap_column f df key j :
  locs (columns df) key = [j] →
  setitem df key (f <$> column j df)
  = {| index := index df; columns := columns df; data := alter f j <$> data df |}.
Proof.
  intros Hj. unfold setitem, column. rewrite Hj. f_equal. simpl.
  rewrite <- list_fmap_compose. apply (zip_with_insert_column f).
Qed.

Lemma apply_setitem_single f df col j :
  locs (columns df) col = [j] →
  apply_setitem f df col
  = {| index := index df; columns := columns df; data := alter f j <$> data df |}.
Proof.
  intros Hj. unfold apply_setitem. rewrite Hj. by apply setitem_fmap_column.
Qed.

Lemma alter_cell_id (f : value → value) row j :
  f (cell row j) = cell row j → alter f j row = row.
Proof.
  intros Hf. rewrite <- insert_cell_alter, Hf. apply insert_cell_id.
Qed.

(** A step of the loop changes nothing when [f] fixes every cell. *)
Lemma apply_setitem_fixed f df col :
  (∀ row j, row ∈ data df → f (cell row j) = cell row j) →
  apply_setitem f df col = df.
Proof.
  intros Hf. unfold apply_setitem.
  destruct (locs (columns df) col) as [|j [|j' js]] eqn:E; try done.
  rewrite setitem_fmap_column by done. destruct df as [ix cols rows]; simpl in *.
  f_equal. rewrite <- (list_fmap_id rows) at 2.
  apply list_fmap_ext. intros i row Hrow. simpl. apply alter_cell_id.
  apply Hf. by eapply list_elem_of_lookup_2.
Qed.

Lemma alter_prefix (f : value → value) (row : list value) k :
  k < length row →
  alter f k ((f <$> take k row) ++ drop k row)
  = (f <$> take (S k) row) ++ drop (S k) row.
Proof.
  intros Hk. destruct (lookup_lt_is_Some_2 row k Hk) as [x Hx].
  rewrite (drop_S row x k Hx), (take_S_r row k x Hx).
  rewrite fmap_app. simpl. rewrite <- (assoc_L (++)). simpl.
  rewrite alter_app_r_alt by (rewrite length_fmap, length_take; lia).
  rewrite length_fmap, length_take.
  replace (k - k `min` length row) with 0 by lia. done.
Qed.

(** ** The text passes *)

Lemma foldl_fixed {A B} (step : A → B → A) (P : A → Prop) (a : A) (l : list B) :
  (∀ a b, P a → step a b = a) → P a → foldl step a l = a.
Proof.
  intros Hstep Ha. induction l as [|b l IH]; simpl; [done|].
  by rewrite Hstep.
Qed.

Lemma strip_if_str_trimmed (row : list value) j :
  (∀ s, VStr s ∈ row → Py.trimmed s = true) →
  strip_if_str (cell row j) = cell row j.
Proof.
  intros Hrow. unfold cell. destruct (row !! j) as [[s| |]|] eqn:E; simpl; try done.
  f_equal. apply PyFacts.strip_trimmed, Hrow. by eapply list_elem_of_lookup_2.
Qed.

(** The loop over a prefix of the labels has trimmed exactly the columns of
    that prefix. *)
Lemma strip_loop_prefix (f : value → value) df k :
  NoDup (columns df) → well_formed df → k ≤ length (columns df) →
  foldl (apply_setitem f) df (take k (columns df))
  = {| index := index df; columns := columns df;
       data := (λ row, (f <$> take k row) ++ drop k row) <$> data df |}.
Proof.
  intros Hnd [_ Hwf]. induction k as [|k IH]; intros Hk.
  - simpl. destruct df as [ix cols rows]; simpl. f_equal.
    rewrite <- (list_fmap_id rows) at 1. apply list_fmap_ext. intros i row _.
    done.
  - destruct (lookup_lt_is_Some_2 (columns df) k) as [c Hc]; [lia|].
    rewrite (take_S_r _ _ _ Hc), foldl_app. simpl. rewrite IH by lia.
    rewrite (apply_setitem_single _ _ _ k) by (simpl; by apply locs_NoDup).
    simpl. f_equal. rewrite <- list_fmap_compose. apply list_fmap_ext.
    intros i row Hrow. simpl. apply alter_prefix.
    rewrite Forall_forall in Hwf. rewrite Hwf by (by eapply list_elem_of_lookup_2). lia.
Qed.

(** On a frame with distinct labels the generic pass maps
    [strip_if_str] over every cell and touches nothing else. *)
Lemma strip_text_columns_cells df :
  NoDup (columns df) → well_formed df →
  strip_text_columns df
  = {| index := index df; columns := columns df;
       data := (λ row : list value, strip_if_str <$> row) <$> data df |}.
Proof.
  intros Hnd Hwf. unfold strip_text_columns, select_dtypes_object_columns.
  pose proof (strip_loop_prefix strip_if_str df (length (columns df)) Hnd Hwf) as Hloop.
  rewrite take_ge in Hloop by lia. rewrite Hloop by lia. f_equal.
  apply list_fmap_ext. intros i row Hrow. destruct Hwf as [_ Hwf].
  rewrite Forall_forall in Hwf.
  rewrite <- (Hwf row) by (by eapply list_elem_of_lookup_2).
  by rewrite take_ge, drop_ge, app_nil_r by lia.
Qed.

Lemma strip_text_columns_fixed df :
  (∀ row s, row ∈ data df → VStr s ∈ row → Py.trimmed s = true) →
  strip_text_columns df = df.
Proof.
  intros Htrim. unfold strip_text_columns.
  apply (foldl_fixed _ (λ d, d = df)); [|done].
  intros d col ->. apply apply_setitem_fixed.
  intros row j Hrow. apply strip_if_str_trimmed. eauto.
Qed.

(** The dedicated step on the UUID column, when one column carries the
    label and [.str] accepts its cells. *)
Lemma strip_uuid_single df j :
  locs (columns df) (VStr "UUID") = [j] →
  existsb is_str (column j df) || negb (existsb is_num (column j df)) = true →
  strip_uuid df
  = Ok {| index := index df; columns := columns df;
          data := alter str_strip1 j <$> data df |}.
Proof.
  intros Hj Hacc. unfold strip_uuid.
  assert (VStr "UUID" ∈ columns df) as Hin.
  { eapply list_elem_of_lookup_2, elem_of_locs. rewrite Hj. left. }
  rewrite decide_True by done. rewrite Hj.
  unfold str_strip, str_accessor. rewrite Hacc. simpl.
  by rewrite setitem_fmap_column.
Qed.

Lemma strip_uuid_absent df :
  VStr "UUID" ∉ columns df → strip_uuid df = Ok df.
Proof. intros Hin. unfold strip_uuid. by rewrite decide_False. Qed.

(** ** The header normalizer *)

Lemma length_transposed_row df j row :
  data (T df) !! j = Some row → length row = length (data df).
Proof.
  unfold T. simpl. rewrite list_lookup_fmap. intros Hrow.
  destruct (seq 0 (length (columns df)) !! j); simplify_eq/=.
  unfold column. by rewrite length_fmap.
Qed.

Lemma set_columns_ok df labels :
  length labels = length (columns df) →
  set_columns df labels = Ok {| index := index df; columns := labels; data := data df |}.
Proof. intros Hlen. unfold set_columns. by rewrite decide_True. Qed.

Lemma str_strip_no_num (labels : list value) :
  Forall (λ v, is_num v = false) labels →
  str_strip true labels = Ok (strip_if_str <$> labels).
Proof.
  intros Hnum. unfold str_strip, str_accessor.
  assert (existsb is_num labels = false) as ->.
  { induction Hnum as [|v l Hv _ IH]; simpl; [done|]. by rewrite Hv, IH. }
  rewrite orb_true_r. simpl. f_equal.
  apply Forall_fmap_ext_1. eapply Forall_impl; [exact Hnum|].
  by intros [| |] ?.
Qed.

Lemma apply_setitem_shape f df col :
  index (apply_setitem f df col) = index df ∧
  columns (apply_setitem f df col) = columns df ∧
  length (data (apply_setitem f df col)) = length (data df).
Proof.
  unfold apply_setitem.
  destruct (locs (columns df) col) as [|j [|j' js]] eqn:E; try done.
  rewrite setitem_fmap_column by done. simpl. by rewrite length_fmap.
Qed.

(** The generic pass keeps the labels, the row labels and the number of
    rows, whatever the table. *)
Lemma strip_text_columns_shape df :
  index (strip_text_columns df) = index df ∧
  columns (strip_text_columns df) = columns df ∧
  length (data (strip_text_columns df)) = length (data df).
Proof.
  unfold strip_text_columns. generalize (select_dtypes_object_columns df).
  intros labels. revert df. induction labels as [|col labels IH]; intros df; [done|].
  simpl. destruct (IH (apply_setitem strip_if_str df col)) as (-> & -> & ->).
  apply apply_setitem_shape.
Qed.

Lemma locs_absent labels key : key ∉ labels → locs labels key = [].
Proof.
  intros Hkey. destruct (locs labels key) as [|j l] eqn:E; [done|].
  assert (Hj : j ∈ locs labels key) by (rewrite E; left).
  apply elem_of_locs in Hj. apply list_elem_of_lookup_2 in Hj. done.
Qed.

Lemma transposed_rows df : length (data (T df)) = length (columns df).
Proof. unfold T. simpl. by rewrite length_fmap, length_seq. Qed.

Lemma set_columns_bad df labels :
  length labels ≠ length (columns df) → set_columns df labels = Raise ValueError.
Proof. intros Hlen. unfold set_columns. by rewrite decide_False. Qed.

Lemma holds_text_elem (vals : list value) :
  holds_text vals = true ↔ ∃ s, VStr s ∈ vals.
Proof.
  unfold holds_text. rewrite existsb_exists. split.
  - intros ([s| |] & Hin%list_elem_of_In & Hs); try done. by exists s.
  - intros [s Hin]. exists (VStr s). split; [by apply list_elem_of_In|done].
Qed.

(** Text among the attribute names is text in the sheet. *)
Lemma transposed_row_text df j row :
  data (T df) !! j = Some row → holds_text row = true →
  existsb holds_text (data df) = true.
Proof.
  unfold T. simpl. rewrite list_lookup_fmap.
  destruct (seq 0 (length (columns df)) !! j) as [k|]; [|done]. simpl.
  intros [= <-] [s Hs]%holds_text_elem.
  unfold column in Hs. apply list_elem_of_fmap in Hs as (r & Hcell & Hr).
  apply existsb_exists. exists r. split; [by apply list_elem_of_In|].
  apply holds_text_elem. exists s. unfold cell in Hcell.
  destruct (r !! k) as [v|] eqn:Hv; simpl in Hcell; [|done]. subst v.
  by eapply list_elem_of_lookup_2.
Qed.

(** The header statements on a sheet with at least one column: what they
    return, or the refusal of [.str]. *)
Lemma normalize_header_cases (df : DataFrame) (row0 : list value) :
  well_formed df →
  data (T df) !! 0 = Some row0 →
  normalize_header df
  = if existsb holds_text (data df) && (existsb is_str row0 || negb (existsb is_num row0))
    then Ok {| index := RangeIndex (length (columns df) - 2);
               columns := str_strip1 <$> row0;
               data := drop 2 (data (T df)) |}
    else Raise AttributeError.
Proof.
  intros [Hix _] Hrow0. unfold normalize_header, iloc. rewrite Hrow0. simpl.
  rewrite set_columns_ok by (rewrite (length_transposed_row _ _ _ Hrow0); done).
  simpl. unfold str_strip, str_accessor.
  destruct (existsb holds_text (data df) && _); simpl; [|done].
  rewrite set_columns_ok by apply length_fmap. simpl.
  by rewrite length_drop, length_fmap, length_seq.
Qed.

Lemma normalize_header_text (df : DataFrame) (row0 : list value) :
  well_formed df →
  data (T df) !! 0 = Some row0 →
  holds_text row0 = true →
  normalize_header df
  = Ok {| index := RangeIndex (length (data (T df)) - 2);
          columns := str_strip1 <$> row0;
          data := drop 2 (data (T df)) |}.
Proof.
  intros Hwf Hrow0 Htext. rewrite (normalize_header_cases df row0) by done.
  rewrite (transposed_row_text _ _ _ Hrow0 Htext), transposed_rows.
  unfold holds_text in Htext. by rewrite Htext.
Qed.

(** Whatever the sheet, a table the header normalizer returns has labels
    that went through [.str.strip()], the rows 2, 3, ... of the transposed
    sheet and the row labels 0, 1, 2, ... *)
Lemma normalize_header_inv (df header : DataFrame) :
  normalize_header df = Ok header →
  ∃ row0, data (T df) !! 0 = Some row0 ∧
          index header = RangeIndex (length (data (T df)) - 2) ∧
          columns header = str_strip1 <$> row0 ∧
          data header = drop 2 (data (T df)).
Proof.
  unfold normalize_header, iloc.
  destruct (data (T df) !! 0) as [row0|] eqn:Hrow0; [|done]. simpl.
  destruct (decide (length row0 = length (columns (T df)))) as [Hlen|Hlen].
  2:{ by rewrite set_columns_bad. }
  rewrite set_columns_ok by done. simpl.
  unfold str_strip, str_accessor.
  destruct (existsb holds_text (data df) && _); simpl; [|done].
  rewrite set_columns_ok by apply length_fmap. simpl. intros [= <-]. simpl.
  exists row0. by rewrite length_drop.
Qed.




Example load_and_clean_metadata_sample :
  @load_and_clean_metadata Samples.files "procedes.xlsx" = Ok Samples.metadata_clean ∧
  @load_and_clean_indicators Samples.files "categories.xlsx" = Ok Samples.indicators_clean.
Proof. split; vm_compute; reflexivity. Qed.

(** ** The text normalizer *)

(** The pass leaves a table it has produced as it is. *)
Lemma strip_text_columns_twice df :
  NoDup (columns df) → well_formed df →
  strip_text_columns (strip_text_columns df) = strip_text_columns df.
Proof.
  intros Hnd Hwf. apply strip_text_columns_fixed.
  rewrite strip_text_columns_cells by done. simpl.
  intros row s [row' [-> _]]%list_elem_of_fmap [[s'| |] [Hs _]]%list_elem_of_fmap;
    simplify_eq/=.
  apply PyFacts.trimmed_strip.
Qed.



(** On a table with distinct labels the generic pass trims every text
    cell and leaves every other cell as it is. *)
Lemma strip_text_columns_cell df i j row :
  NoDup (columns df) → well_formed df →
  data df !! i = Some row →
  ∃ row', data (strip_text_columns df) !! i = Some row' ∧
          length row' = length row ∧
          cell row' j = strip_if_str (cell row j).
Proof.
  intros Hnd Hwf Hrow. rewrite strip_text_columns_cells by done. simpl.
  exists (strip_if_str <$> row). rewrite list_lookup_fmap, Hrow. split_and!; [done| |].
  - by rewrite length_fmap.
  - unfold cell. rewrite list_lookup_fmap. by destruct (row !! j).
Qed.

(** The dedicated step trims the text cells of the UUID column whether or
    not the generic pass runs afterwards, and touches no other column. *)
Lemma strip_uuid_trims_text df j :
  locs (columns df) (VStr "UUID") = [j] →
  existsb is_str (column j df) || negb (existsb is_num (column j df)) = true →
  ∃ stripped,
    strip_uuid df = Ok stripped ∧
    columns stripped = columns df ∧
    ∀ i row, data df !! i = Some row →
      ∃ row', data stripped !! i = Some row' ∧
        (∀ s, row !! j = Some (VStr s) → row' !! j = Some (VStr (Py.strip s))) ∧
        (∀ j', j' ≠ j → row' !! j' = row !! j').
Proof.
  intros Hj Hacc. rewrite (strip_uuid_single _ _ Hj Hacc). eexists. split; [done|].
  simpl. split; [done|]. intros i row Hrow. exists (alter str_strip1 j row).
  rewrite list_lookup_fmap, Hrow. split_and!; [done| |].
  - intros s Hs. by rewrite list_lookup_alter_eq, Hs.
  - intros j' Hne. by rewrite list_lookup_alter_ne.
Qed.

Lemma strip_if_str_idemp v : strip_if_str (strip_if_str v) = strip_if_str v.
Proof. destruct v; simpl; [|done|done]. by rewrite PyFacts.strip_idemp. Qed.

Lemma fmap_strip_alter j (row : list value) :
  is_num (cell row j) = false →
  strip_if_str <$> alter str_strip1 j row = strip_if_str <$> row.
Proof.
  intros Hnum. apply list_eq. intros i. rewrite !list_lookup_fmap.
  destruct (decide (i = j)) as [->|Hne].
  - rewrite list_lookup_alter_eq. unfold cell in Hnum.
    destruct (row !! j) as [[s| |]|]; simpl in *; try done.
    by rewrite PyFacts.strip_idemp.
  - by rewrite list_lookup_alter_ne.
Qed.

(** Where the UUID column holds text and missing values only, the two text
    passes of load_and_clean_metadata together trim every text cell and
    leave every other cell as it is. *)
Lemma text_passes_cells df :
  NoDup (columns df) → well_formed df →
  (∀ j, columns df !! j = Some (VStr "UUID") →
        Forall (λ v, is_num v = false) (column j df)) →
  (stripped <- strip_uuid df ;; Ok (strip_text_columns stripped))
  = Ok {| index := index df; columns := columns df;
          data := (λ row : list value, strip_if_str <$> row) <$> data df |}.
Proof.
  intros Hnd Hwf Hcol.
  destruct (decide (VStr "UUID" ∈ columns df)) as [Hin|Hin].
  - apply list_elem_of_lookup_1 in Hin as [j Hj].
    assert (existsb is_num (column j df) = false) as Hnum.
    { specialize (Hcol j Hj). induction Hcol as [|v l Hv _ IH]; simpl; [done|].
      by rewrite Hv, IH. }
    rewrite (strip_uuid_single df j); [|by apply locs_NoDup|by rewrite Hnum, orb_true_r].
    simpl. rewrite strip_text_columns_cells; simpl; [|done|].
    + f_equal. f_equal. rewrite <- list_fmap_compose. apply list_fmap_ext.
      intros i row Hrow. simpl. apply fmap_strip_alter.
      specialize (Hcol j Hj). rewrite Forall_forall in Hcol. apply Hcol.
      unfold column. apply list_elem_of_fmap. exists row.
      split; [done|by eapply list_elem_of_lookup_2].
    + destruct Hwf as [Hix Hlen]. split; simpl; [by rewrite length_fmap|].
      rewrite Forall_fmap. eapply Forall_impl; [exact Hlen|].
      intros row Hrow. simpl. by rewrite length_alter.
  - rewrite strip_uuid_absent by done. simpl. by rewrite strip_text_columns_cells.
Qed.
(** The generic pass skips columns that share a label: [df[col]] is then a
    sub-frame and the lambda sees whole columns. *)
Example strip_text_columns_shared_label :
  strip_text_columns
    {| index := RangeIndex 1;
       columns := [VStr "Nom"; VNaN; VNaN];
       data := [ [VStr " Acier "; VStr " a "; VStr " b "] ] |}
  = {| index := RangeIndex 1;
       columns := [VStr "Nom"; VNaN; VNaN];
       data := [ [VStr "Acier"; VStr " a "; VStr " b "] ] |}.
Proof. vm_compute. reflexivity. Qed.

(** C5. The process sheet [Samples.numeric_uuid_sheet] holds the number 7
    in its identifier row.  The generic pass alone, as in
    load_and_clean_indicators, trims the text cells and keeps the 7;
    load_and_clean_metadata, whose line 36 runs [.str.strip()] on the UUID
    column first, returns a missing value in its place. *)
Theorem load_and_clean_metadata_numeric_uuid :
  data (T Samples.numeric_uuid_sheet) !! 3 = Some [VInt 7; VStr "Bois"] ∧
  @load_and_clean_indicators Samples.numeric_uuid_files "procedes.xlsx"
  = Ok {| index := RangeIndex 2;
          columns := [VStr "UUID"; VStr "Nom"];
          data := [ [VStr "P1"; VStr "Acier"]; [VInt 7; VStr "Bois"] ] |} ∧
  @load_and_clean_metadata Samples.numeric_uuid_files "procedes.xlsx"
  = Ok {| index := RangeIndex 2;
          columns := [VStr "UUID"; VStr "Nom"];
          data := [ [VStr "P1"; VStr "Acier"]; [VNaN; VStr "Bois"] ] |}.
Proof. split_and!; vm_compute; reflexivity. Qed.

(** ** The readers *)

(** C9 (as amended). Each loading operation calls its reader first and
    handles nothing: when the reader raises, for a path that does not
    resolve or for a file it cannot parse, the loader raises that same
    exception, with the reader's class and message. *)
Theorem loaders_propagate_reader_exception `{PandasEnv} (filepath : string) (e : exn) :
  (read_excel filepath = Raise e →
   load_and_clean_metadata filepath = Raise e ∧
   load_and_clean_indicators filepath = Raise e) ∧
  (read_csv filepath "latin-1" ";" = Raise e →
   load_and_clean_impacts filepath = Raise e).
Proof.
  unfold load_and_clean_metadata, load_and_clean_impacts, load_and_clean_indicators.
  split; intros Hread; by rewrite Hread.
Qed.

Lemma loaders_propagate_reader_exception_witness :
  (@load_and_clean_metadata Samples.no_files "absent" = Raise (FileNotFoundError "absent") ∧
   @load_and_clean_indicators Samples.no_files "absent" = Raise (FileNotFoundError "absent")) ∧
  @load_and_clean_impacts Samples.no_files "absent" = Raise (FileNotFoundError "absent").
Proof.
  destruct (@loaders_propagate_reader_exception Samples.no_files "absent"
              (FileNotFoundError "absent")) as [Hexcel Hcsv].
  split; [apply Hexcel|apply Hcsv]; reflexivity.
Defined.

(** C9, as stated, fails where no file exists: the three loaders raise
    Python's FileNotFoundError, which is what the reader raised, and not an
    exception of a class SourceNotFound. *)
Lemma missing_file_not_SourceNotFound :
  ¬ (∃ e, @load_and_clean_impacts Samples.no_files "absent.csv" = Raise e ∧
          exn_class e = "SourceNotFound") ∧
  ¬ (∃ e, @load_and_clean_metadata Samples.no_files "absent.xlsx" = Raise e ∧
          exn_class e = "SourceNotFound") ∧
  ¬ (∃ e, @load_and_clean_indicators Samples.no_files "absent.xlsx" = Raise e ∧
          exn_class e = "SourceNotFound").
Proof.
  split_and!; intros (e & He & Hcls); vm_compute in He; by simplify_eq.
Qed.

(** ** The impacts loader *)


Lemma renamed_other c : c ∉ impacts_renames.*1 → renamed c = c.
Proof.
  unfold renamed, impacts_renames. simpl. rewrite !not_elem_of_cons.
  intros (? & ? & ? & ? & _). by rewrite !decide_False by done.
Qed.

(** C10. When the reader returns the table [parsed],
    load_and_clean_impacts returns [parsed] without its row 0: row [i] of
    the output is row [i+1] of [parsed], so a non-empty [parsed] loses
    exactly one row; the row labels are 0, 1, 2, ...; the four French
    headers are renamed to impact_category_uuid, impact_name_en,
    impact_name_fr and unit, and every other label is kept. *)
Theorem load_and_clean_impacts_spec `{PandasEnv} (filepath : string) (parsed : DataFrame) :
  read_csv filepath "latin-1" ";" = Ok parsed →
  ∃ out,
    load_and_clean_impacts filepath = Ok out ∧
    data out = drop 1 (data parsed) ∧
    (∀ i, data out !! i = data parsed !! S i) ∧
    (data parsed ≠ [] → S (length (data out)) = length (data parsed)) ∧
    index out = RangeIndex (length (data out)) ∧
    columns out = renamed <$> columns parsed ∧
    renamed (VStr ("UUID de la cat" +:+ String e_acute "gorie d'impacts")) = VStr "impact_category_uuid" ∧
    renamed (VStr "Nom anglais") = VStr "impact_name_en" ∧
    renamed (VStr ("Nom fran" +:+ String c_cedilla "ais")) = VStr "impact_name_fr" ∧
    renamed (VStr ("Unit" +:+ String e_acute "")) = VStr "unit" ∧
    (∀ c, c ∉ impacts_renames.*1 → renamed c = c).
Proof.
  intros Hread. unfold load_and_clean_impacts. rewrite Hread. simpl.
  eexists. split; [reflexivity|]. simpl. split_and!; try done.
  - intros i. by rewrite lookup_drop.
  - destruct (data parsed); [done|]. intros _. simpl. by rewrite drop_0.
  - apply renamed_other.
Qed.

Lemma load_and_clean_impacts_spec_witness :
  ∃ out,
    @load_and_clean_impacts Samples.files "impacts.csv" = Ok out ∧
    data out = drop 1 (data Samples.impacts_table) ∧
    (∀ i, data out !! i = data Samples.impacts_table !! S i) ∧
    (data Samples.impacts_table ≠ [] → S (length (data out)) = length (data Samples.impacts_table)) ∧
    index out = RangeIndex (length (data out)) ∧
    columns out = renamed <$> columns Samples.impacts_table ∧
    renamed (VStr ("UUID de la cat" +:+ String e_acute "gorie d'impacts")) = VStr "impact_category_uuid" ∧
    renamed (VStr "Nom anglais") = VStr "impact_name_en" ∧
    renamed (VStr ("Nom fran" +:+ String c_cedilla "ais")) = VStr "impact_name_fr" ∧
    renamed (VStr ("Unit" +:+ String e_acute "")) = VStr "unit" ∧
    (∀ c, c ∉ impacts_renames.*1 → renamed c = c).
Proof.
  apply (@load_and_clean_impacts_spec Samples.files "impacts.csv" Samples.impacts_table).
  reflexivity.
Defined.

Example load_and_clean_impacts_sample :
  @load_and_clean_impacts Samples.files "impacts.csv" = Ok Samples.impacts_clean.
Proof. vm_compute. reflexivity. Qed.

(** ** Blocks of rows *)

Lemma length_bind_sum {A B} (f : A → list B) (l : list A) :
  length (l ≫= f) = sum_list_with (λ x, length (f x)) l.
Proof.
  induction l as [|x l IH]; [done|].
  rewrite bind_cons, length_app, IH. done.
Qed.

Lemma length_bind_uniform {A B} (f : A → list B) (l : list A) n :
  (∀ x, x ∈ l → length (f x) = n) → length (l ≫= f) = length l * n.
Proof.
  intros Hn. induction l as [|x l IH]; [done|].
  rewrite bind_cons, length_app, IH, Hn; [simpl; lia|left|].
  intros y Hy. apply Hn. by right.
Qed.

Lemma lookup_bind_uniform {A B} (f : A → list B) (l : list A) n k i x :
  (∀ x, x ∈ l → length (f x) = n) →
  l !! k = Some x → i < n →
  (l ≫= f) !! (k * n + i) = f x !! i.
Proof.
  intros Hn. revert k. induction l as [|y l IH]; intros k Hk Hi; [done|].
  rewrite bind_cons. destruct k as [|k]; simplify_eq/=.
  - rewrite lookup_app_l; [done|]. rewrite Hn; [done|left].
  - rewrite lookup_app_r by (rewrite Hn; [lia|left]).
    rewrite Hn by left. replace (n + k * n + i - n) with (k * n + i) by lia.
    apply IH; [|done|done]. intros z Hz. apply Hn. by right.
Qed.

Lemma fmap_bind {A B C} (g : B → C) (f : A → list B) (l : list A) :
  g <$> (l ≫= f) = l ≫= (λ x, g <$> f x).
Proof.
  induction l as [|x l IH]; [done|].
  by rewrite !bind_cons, fmap_app, IH.
Qed.

(** ** The reshaper *)

Lemma head_locs labels key :
  key ∈ labels → ∃ j, head (locs labels key) = Some j ∧ labels !! j = Some key.
Proof.
  intros [j Hj]%list_elem_of_lookup_1. apply elem_of_locs in Hj.
  destruct (locs labels key) as [|j' l] eqn:E; [by apply elem_of_nil in Hj|].
  exists j'. split; [done|]. apply elem_of_locs. rewrite E. left.
Qed.

Lemma get_indexer_ok labels keys :
  keys ⊆ labels →
  ∃ js, get_indexer labels keys = Ok js ∧
        Forall2 (λ key j, labels !! j = Some key) keys js.
Proof.
  induction keys as [|key keys IH]; intros Hsub.
  - exists []. by split.
  - destruct (head_locs labels key) as (j & Hhead & Hj); [apply Hsub; left|].
    destruct IH as (js & Hjs & Hall); [intros x Hx; apply Hsub; by right|].
    exists (j :: js). simpl. rewrite Hhead, Hjs. split; [done|]. by constructor.
Qed.

Lemma value_cols_spec df c : c ∈ value_cols df ↔ c ∈ columns df ∧ c ∉ id_cols.
Proof. unfold value_cols. rewrite list_elem_of_filter. tauto. Qed.

Lemma no_missing (labels keys : list value) :
  keys ⊆ labels → filter (λ key, key ∉ labels) keys = [].
Proof.
  intros Hsub. destruct (filter _ keys) as [|x l] eqn:E; [done|].
  assert (x ∈ filter (λ key, key ∉ labels) keys) as [Hx Hin]%list_elem_of_filter
    by (rewrite E; left).
  destruct Hx. by apply Hsub.
Qed.

Lemma value_cols_present df : value_cols df ⊆ columns df.
Proof. intros c Hc. by apply value_cols_spec in Hc as [? _]. Qed.

Lemma alter_long_row (f : value → value) (ids : list value) (col x : value) :
  length ids = 4 → alter f 5 (ids ++ [col; x]) = ids ++ [col; f x].
Proof.
  intros Hlen. rewrite alter_app_r_alt by lia. rewrite Hlen. done.
Qed.

(** The rows [reshape_impacts_to_long] returns: for each value column, in
    the order of the header, one row per source row. *)
Lemma reshape_impacts_to_long_rows `{PandasEnv} df :
  id_cols ⊆ columns df → VStr "impact_value" ∉ columns df →
  ∃ id_locs value_locs,
    Forall2 (λ key j, columns df !! j = Some key) id_cols id_locs ∧
    Forall2 (λ key j, columns df !! j = Some key) (value_cols df) value_locs ∧
    let rows :=
      zip (value_cols df) value_locs ≫= λ '(col, j),
        (λ row, (cell row <$> id_locs) ++ [col; to_numeric1 (cell row j)]) <$> data df in
    reshape_impacts_to_long df
    = Ok {| index := RangeIndex (length rows);
            columns := id_cols ++ [VStr "process_uuid"; VStr "impact_value"];
            data := rows |}.
Proof.
  intros Hids Hval.
  destruct (get_indexer_ok (columns df) id_cols Hids) as (id_locs & Hid & Hid2).
  destruct (get_indexer_ok (columns df) (value_cols df)) as (value_locs & Hv & Hv2).
  { intros c Hc. by apply value_cols_spec in Hc as [? _]. }
  exists id_locs, value_locs. split_and!; [done|done|]. simpl.
  unfold reshape_impacts_to_long, melt. rewrite decide_False by done.
  rewrite (no_missing _ _ Hids), (no_missing _ _ (value_cols_present df)).
  rewrite Hid, Hv. simpl. unfold getitem. simpl.
  change (get_loc _ _) with (@Ok nat 5). simpl.
  unfold to_numeric_coerce. rewrite (setitem_fmap_column _ _ _ 5) by done. simpl.
  assert (length id_locs = 4) as Hlen by (by rewrite <- (Forall2_length _ _ _ Hid2)).
  match goal with
  | |- Ok {| index := _; columns := _; data := alter _ _ <$> ?rows0 |}
       = Ok {| index := _; columns := _; data := ?rows |} =>
      assert (alter to_numeric1 5 <$> rows0 = rows) as <-
  end.
  { rewrite fmap_bind. apply list_bind_ext; [|done]. intros [col j].
    rewrite <- list_fmap_compose. apply list_fmap_ext. intros i row _. simpl.
    apply alter_long_row. by rewrite length_fmap. }
  by rewrite length_fmap.
Qed.

(** C2. For an impacts table with distinct column labels that carries the
    four identifier columns (and no column named impact_value, the name
    melt gives the new column), reshape_impacts_to_long returns a table
    whose number of rows is the number of input rows times the number of
    value columns; the value columns are the input columns that are not
    among impact_category_uuid, impact_name_en, impact_name_fr, unit. *)
Theorem reshape_row_count `{PandasEnv} (impacts_df : DataFrame) :
  NoDup (columns impacts_df) →
  id_cols ⊆ columns impacts_df →
  VStr "impact_value" ∉ columns impacts_df →
  ∃ df_long,
    reshape_impacts_to_long impacts_df = Ok df_long ∧
    length (data df_long) = length (data impacts_df) * length (value_cols impacts_df) ∧
    ∀ c, c ∈ value_cols impacts_df ↔
         c ∈ columns impacts_df ∧
         c ∉ [VStr "impact_category_uuid"; VStr "impact_name_en";
              VStr "impact_name_fr"; VStr "unit"].
Proof.
  intros _ Hids Hval.
  destruct (reshape_impacts_to_long_rows impacts_df Hids Hval)
    as (id_locs & value_locs & _ & Hv & Hrows). simpl in Hrows.
  eexists. split; [exact Hrows|]. split; [|apply value_cols_spec]. simpl.
  rewrite (length_bind_uniform _ _ (length (data impacts_df))).
  - rewrite length_zip, <- (Forall2_length _ _ _ Hv). lia.
  - intros [col j] _. apply length_fmap.
Qed.

Lemma reshape_row_count_witness :
  ∃ df_long,
    @reshape_impacts_to_long Samples.files Samples.impacts_clean = Ok df_long ∧
    length (data df_long) = 2 * 2 ∧
    ∀ c, c ∈ value_cols Samples.impacts_clean ↔
         c ∈ columns Samples.impacts_clean ∧
         c ∉ [VStr "impact_category_uuid"; VStr "impact_name_en";
              VStr "impact_name_fr"; VStr "unit"].
Proof.
  apply (@reshape_row_count Samples.files Samples.impacts_clean).
  - by_computation.
  - by_computation.
  - by_computation.
Defined.

(** C3. Let a cell of a value column hold text the float parser rejects
    (the text "n/a", say).  reshape_impacts_to_long raises nothing; the
    row of the output that stands for this cell is there, at its place in
    the block of its column: it carries the identifier cells of the source
    row, the column's label as process_uuid, and a missing impact_value. *)
Theorem reshape_unparsed_cell_is_missing `{PandasEnv} (impacts_df : DataFrame)
    (i j : nat) (row : list value) (col : value) (s : string) :
  NoDup (columns impacts_df) →
  id_cols ⊆ columns impacts_df →
  VStr "impact_value" ∉ columns impacts_df →
  data impacts_df !! i = Some row →
  columns impacts_df !! j = Some col →
  col ∉ id_cols →
  row !! j = Some (VStr s) →
  parse_float s = None →
  ∃ df_long k long_row,
    reshape_impacts_to_long impacts_df = Ok df_long ∧
    columns df_long = id_cols ++ [VStr "process_uuid"; VStr "impact_value"] ∧
    length (data df_long) = length (data impacts_df) * length (value_cols impacts_df) ∧
    value_cols impacts_df !! k = Some col ∧
    data df_long !! (k * length (data impacts_df) + i) = Some long_row ∧
    (∀ m a key, id_cols !! m = Some key → columns impacts_df !! a = Some key →
                long_row !! m = Some (cell row a)) ∧
    long_row !! 4 = Some col ∧
    long_row !! 5 = Some VNaN.
Proof.
  intros Hnd Hids Hval Hrow Hcol Hnid Hcell Hparse.
  destruct (reshape_impacts_to_long_rows impacts_df Hids Hval)
    as (id_locs & value_locs & Hid & Hv & Hrows). simpl in Hrows.
  assert (col ∈ value_cols impacts_df) as [k Hk]%list_elem_of_lookup_1.
  { apply value_cols_spec. split; [by eapply list_elem_of_lookup_2|done]. }
  destruct (Forall2_lookup_l _ _ _ _ _ Hv Hk) as (j' & Hj' & Hlab).
  assert (j' = j) as -> by (eapply NoDup_lookup; eauto).
  assert (length id_locs = 4) as Hlen by (by rewrite <- (Forall2_length _ _ _ Hid)).
  eexists _, k, ((cell row <$> id_locs) ++ [col; VNaN]).
  split; [exact Hrows|]. simpl. split_and!.
  - done.
  - rewrite (length_bind_uniform _ _ (length (data impacts_df))).
    + rewrite length_zip, <- (Forall2_length _ _ _ Hv). lia.
    + intros [c' j'] _. apply length_fmap.
  - done.
  - rewrite (lookup_bind_uniform _ _ (length (data impacts_df)) k i (col, j)).
    + rewrite list_lookup_fmap, Hrow. simpl. unfold cell at 2. rewrite Hcell. simpl.
      by rewrite Hparse.
    + intros [c' j'] _. apply length_fmap.
    + apply lookup_zip_Some. by split.
    + by eapply lookup_lt_Some.
  - intros m a key Hm Ha.
    destruct (Forall2_lookup_l _ _ _ _ _ Hid Hm) as (a' & Ha' & Hlab').
    assert (a' = a) as -> by (eapply NoDup_lookup; eauto).
    rewrite lookup_app_l by (rewrite length_fmap; by eapply lookup_lt_Some).
    by rewrite list_lookup_fmap, Ha'.
  - rewrite lookup_app_r by (rewrite length_fmap; lia).
    by rewrite length_fmap, Hlen.
  - rewrite lookup_app_r by (rewrite length_fmap; lia).
    by rewrite length_fmap, Hlen.
Qed.

Lemma reshape_unparsed_cell_is_missing_witness :
  ∃ df_long k long_row,
    @reshape_impacts_to_long Samples.files Samples.impacts_clean = Ok df_long ∧
    columns df_long = id_cols ++ [VStr "process_uuid"; VStr "impact_value"] ∧
    length (data df_long) = 2 * 2 ∧
    value_cols Samples.impacts_clean !! k = Some (VStr "P3") ∧
    data df_long !! (k * 2 + 0) = Some long_row ∧
    (∀ m a key, id_cols !! m = Some key → columns Samples.impacts_clean !! a = Some key →
                long_row !! m
                = Some (cell [VStr "I1"; VStr "Climate"; VStr "Climat"; VStr "kg";
                              VStr "12"; VStr "n/a"] a)) ∧
    long_row !! 4 = Some (VStr "P3") ∧
    long_row !! 5 = Some VNaN.
Proof.
  apply (@reshape_unparsed_cell_is_missing Samples.files Samples.impacts_clean
           0 5 _ (VStr "P3") "n/a").
  - by_computation.
  - by_computation.
  - by_computation.
  - reflexivity.
  - reflexivity.
  - by_computation.
  - reflexivity.
  - reflexivity.
Defined.

Example reshape_impacts_to_long_sample :
  @reshape_impacts_to_long Samples.files Samples.impacts_clean = Ok Samples.impacts_long.
Proof. vm_compute. reflexivity. Qed.

(** ** The labels of a merge *)

Lemma append_empty_r (s : string) : s +:+ "" = s.
Proof.
  induction s as [|c s IH]; [done|].
  change (String c (s +:+ "") = String c s). by rewrite IH.
Qed.

Lemma duplicated_lookup l i b :
  duplicated l !! i = Some b → ∃ x, l !! i = Some x ∧ b = bool_decide (x ∈ take i l).
Proof.
  unfold duplicated. rewrite list_lookup_imap.
  destruct (l !! i) as [x|]; [|done]. intros [= <-]. by exists x.
Qed.

Lemma duplicated_NoDup l i : NoDup l → duplicated l !! i ≠ Some true.
Proof.
  intros Hnd (x & Hx & Hb)%duplicated_lookup.
  symmetry in Hb. apply bool_decide_eq_true_1 in Hb.
  apply list_elem_of_lookup_1 in Hb as [i' Hi'].
  pose proof (lookup_lt_Some _ _ _ Hi') as Hlt. rewrite length_take in Hlt.
  rewrite lookup_take_lt in Hi' by lia.
  assert (i' = i) by (eapply NoDup_lookup; eauto). lia.
Qed.

(** Distinct labels after the renaming: the suffixes created no duplicate. *)
Lemma created_NoDup (orig renamed : list value) :
  NoDup renamed →
  existsb (λ p : bool * bool, p.1 && negb p.2) (zip (duplicated renamed) (duplicated orig))
  = false.
Proof.
  intros Hnd. apply not_true_is_false. intros ([b1 b2] & Hin & Hb)%existsb_exists.
  apply list_elem_of_In, list_elem_of_lookup_1 in Hin as [i Hi].
  apply lookup_zip_Some in Hi as [Hi _]. simpl in *.
  apply andb_prop in Hb as [-> _]. by apply duplicated_NoDup in Hi.
Qed.

Lemma suffixed_disjoint `{PandasEnv} suffix other labels :
  (∀ x, x ∈ labels → x ∉ other) → suffixed suffix other labels = labels.
Proof.
  intros Hdis. unfold suffixed. rewrite <- (list_fmap_id labels) at 2.
  apply list_fmap_ext. intros i x Hx. rewrite decide_False; [done|].
  apply Hdis. by eapply list_elem_of_lookup_2.
Qed.

Lemma items_overlap_with_suffix_ok `{PandasEnv} (left right : list value) (suffix : string) :
  suffix ≠ "" →
  NoDup (suffixed "" right left) →
  NoDup (suffixed suffix left right) →
  items_overlap_with_suffix left right "" suffix
  = Ok (suffixed "" right left, suffixed suffix left right).
Proof.
  intros Hsfx Hl Hr. unfold items_overlap_with_suffix.
  assert (∀ x, x ∈ filter (λ x, x ∈ right) left ↔ x ∈ right ∧ x ∈ left) as Hren
    by (intros x; by rewrite list_elem_of_filter).
  destruct (filter (λ x, x ∈ right) left) as [|y to_rename] eqn:E.
  - rewrite !suffixed_disjoint; [done| |].
    + intros x Hx Hx'. by apply (elem_of_nil x), Hren.
    + intros x Hx Hx'. by apply (elem_of_nil x), Hren.
  - rewrite bool_decide_eq_false_2 by (by intros [_ ?]).
    assert ((λ x, if decide (x ∈ y :: to_rename) then VStr (label_str x +:+ "") else x)
              <$> left = suffixed "" right left) as ->.
    { apply list_fmap_ext. intros i x Hx. apply list_elem_of_lookup_2 in Hx.
      destruct (decide (x ∈ right)) as [Hin|Hin].
      - rewrite decide_True; [done|]. by apply Hren.
      - rewrite decide_False; [done|]. rewrite Hren. tauto. }
    assert ((λ x, if decide (x ∈ y :: to_rename) then VStr (label_str x +:+ suffix) else x)
              <$> right = suffixed suffix left right) as ->.
    { apply list_fmap_ext. intros i x Hx. apply list_elem_of_lookup_2 in Hx.
      destruct (decide (x ∈ left)) as [Hin|Hin].
      - rewrite decide_True; [done|]. by apply Hren.
      - rewrite decide_False; [done|]. rewrite Hren. tauto. }
    by rewrite !created_NoDup.
Qed.

(** Text labels keep their place on the left of a merge. *)
Lemma suffixed_empty_lookup `{PandasEnv} other labels j s :
  labels !! j = Some (VStr s) → suffixed "" other labels !! j = Some (VStr s).
Proof.
  intros Hj. unfold suffixed. rewrite list_lookup_fmap, Hj. simpl.
  destruct (decide _); [|done]. simpl. by rewrite append_empty_r.
Qed.

Lemma merged_labels_lookup_l `{PandasEnv} suffix left right j s :
  left !! j = Some (VStr s) → merged_labels suffix left right !! j = Some (VStr s).
Proof.
  intros Hj. unfold merged_labels. apply lookup_app_l_Some.
  by apply suffixed_empty_lookup.
Qed.

Lemma merged_labels_NoDup `{PandasEnv} suffix left right :
  NoDup (merged_labels suffix left right) →
  NoDup left ∧ NoDup right ∧
  NoDup (suffixed "" right left) ∧ NoDup (suffixed suffix left right).
Proof.
  unfold merged_labels. intros (Hl & _ & Hr)%NoDup_app.
  split_and!; [|  |done|done].
  - by apply NoDup_fmap_1 in Hl.
  - by apply NoDup_fmap_1 in Hr.
Qed.

(** Two key columns that hold text pass the dtype check. *)
Lemma text_keys_pass (lk rk : list value) :
  holds_text lk = true → holds_text rk = true → merge_keys_clash lk rk = false.
Proof. intros Hl Hr. unfold merge_keys_clash. rewrite Hl, Hr. simpl. by rewrite andb_false_r. Qed.

(** One left merge, when the two keys are found, both key columns hold
    text and the suffix policy leaves the labels distinct. *)
Lemma merge_ok `{PandasEnv} (left right : DataFrame) (left_on right_on : string)
    (suffix : string) (lk rk : nat) :
  suffix ≠ "" →
  NoDup (merged_labels suffix (columns left) (columns right)) →
  columns left !! lk = Some (VStr left_on) →
  columns right !! rk = Some (VStr right_on) →
  holds_text (column lk left) = true →
  holds_text (column rk right) = true →
  let rows := data left ≫= join_row lk rk (length (columns right)) (data right) in
  merge left right (VStr left_on) (VStr right_on) ("", suffix)
  = Ok {| index := RangeIndex (length rows);
          columns := merged_labels suffix (columns left) (columns right);
          data := rows |}.
Proof.
  intros Hsfx Hnd Hlk Hrk Htl Htr. simpl.
  destruct (merged_labels_NoDup _ _ _ Hnd) as (Hl & Hr & Hl' & Hr').
  unfold merge, get_loc.
  rewrite (locs_NoDup _ _ rk) by done. simpl.
  rewrite (locs_NoDup _ _ lk) by done. simpl.
  rewrite text_keys_pass by done. simpl.
  by rewrite items_overlap_with_suffix_ok.
Qed.

(** ** The rows of a merge *)

Lemma bind_bind {A B C} (f : A → list B) (g : B → list C) (l : list A) :
  (l ≫= f) ≫= g = l ≫= (λ x, f x ≫= g).
Proof.
  induction l as [|x l IH]; [done|].
  by rewrite !bind_cons, bind_app, IH.
Qed.

Lemma bind_fmap {A B C} (f : A → B) (g : B → list C) (l : list A) :
  (f <$> l) ≫= g = l ≫= (λ x, g (f x)).
Proof.
  induction l as [|x l IH]; [done|].
  by rewrite fmap_cons, !bind_cons, IH.
Qed.

Lemma cell_app_l row part j : j < length row → cell (row ++ part) j = cell row j.
Proof. intros Hj. unfold cell. by rewrite lookup_app_l. Qed.

(** Joining a fact row with the indicators and then each result with the
    processes gives the pairs of parts. *)
Lemma join_row_twice (a u b v : nat) (indicators_df metadata_df : DataFrame)
    (wi wm : nat) (row : list value) :
  wi = length (columns indicators_df) → wm = length (columns metadata_df) →
  b < length row →
  join_row a u wi (data indicators_df) row ≫= join_row b v wm (data metadata_df)
  = joined_rows a u b v indicators_df metadata_df row.
Proof.
  intros -> -> Hb. unfold join_row, joined_rows. rewrite bind_fmap.
  apply list_bind_ext; [|done]. intros ipart.
  rewrite cell_app_l by done. apply list_fmap_ext. intros i ppart _.
  by rewrite (assoc_L (++)).
Qed.

Lemma str_strip_text (labels : list value) :
  holds_text labels = true →
  str_strip (holds_text labels) labels = Ok (str_strip1 <$> labels).
Proof.
  intros Htext. rewrite Htext. unfold str_strip, str_accessor.
  unfold holds_text in Htext. by rewrite Htext.
Qed.

Lemma stripped_label_text (labels : list value) j s :
  (str_strip1 <$> labels) !! j = Some (VStr s) → holds_text labels = true.
Proof.
  intros Hj. rewrite list_lookup_fmap in Hj. destruct (labels !! j) as [x|] eqn:E; [|done].
  apply existsb_exists. exists x. split; [by eapply list_elem_of_In, list_elem_of_lookup_2|].
  by destruct x.
Qed.

Lemma str_strip_with_text (labels : list value) j s :
  (str_strip1 <$> labels) !! j = Some (VStr s) →
  str_strip (holds_text labels) labels = Ok (str_strip1 <$> labels).
Proof. intros Hj. eapply str_strip_text, stripped_label_text, Hj. Qed.

Lemma right_parts_nonempty (rk width : nat) (rows : list (list value)) (key : value) :
  right_parts rk width rows key ≠ [].
Proof.
  unfold right_parts. by destruct (matching rk key rows).
Qed.

(** A left merge keeps the text of a column of the left frame. *)
Lemma join_keeps_text (lk rk width b : nat) (right_rows rows : list (list value)) :
  Forall (λ row, b < length row) rows →
  holds_text ((λ row, cell row b) <$> rows) = true →
  holds_text ((λ row, cell row b) <$> (rows ≫= join_row lk rk width right_rows)) = true.
Proof.
  intros Hlen [s Hs]%holds_text_elem. apply holds_text_elem. exists s.
  apply list_elem_of_fmap in Hs as (row & Hcell & Hrow).
  rewrite Forall_forall in Hlen. specialize (Hlen row Hrow).
  destruct (right_parts rk width right_rows (cell row lk)) as [|part parts] eqn:E.
  { by apply right_parts_nonempty in E. }
  apply list_elem_of_fmap. exists (row ++ part). split.
  - by rewrite cell_app_l.
  - apply list_elem_of_bind. exists row. split; [|done].
    unfold join_row. rewrite E. rewrite fmap_cons. left.
Qed.

(** What [merge_all_data] does when the keys are found, the four key
    columns hold text and the suffix policy leaves the labels of the
    output distinct. *)
Lemma merge_all_data_ok `{PandasEnv} (metadata_df impacts_long_df indicators_df : DataFrame)
    (a b u v : nat) :
  Forall (λ row, length row = length (columns impacts_long_df)) (data impacts_long_df) →
  NoDup (output_labels metadata_df impacts_long_df indicators_df) →
  columns impacts_long_df !! a = Some (VStr "impact_category_uuid") →
  columns impacts_long_df !! b = Some (VStr "process_uuid") →
  (str_strip1 <$> columns indicators_df) !! u = Some (VStr "UUID") →
  (str_strip1 <$> columns metadata_df) !! v = Some (VStr "UUID") →
  holds_text (column a impacts_long_df) = true →
  holds_text (column b impacts_long_df) = true →
  holds_text (column u indicators_df) = true →
  holds_text (column v metadata_df) = true →
  let rows := data impacts_long_df ≫= joined_rows a u b v indicators_df metadata_df in
  merge_all_data metadata_df impacts_long_df indicators_df
  = {| metadata_after :=
         {| index := index metadata_df;
            columns := str_strip1 <$> columns metadata_df;
            data := data metadata_df |};
       indicators_after :=
         {| index := index indicators_df;
            columns := str_strip1 <$> columns indicators_df;
            data := data indicators_df |};
       returned :=
         Ok {| index := RangeIndex (length rows);
               columns := output_labels metadata_df impacts_long_df indicators_df;
               data := rows |} |}.
Proof.
  intros Hwf Hnd Ha Hb Hu Hv Hta Htb Htu Htv rows. unfold merge_all_data.
  rewrite (str_strip_with_text _ _ _ Hv). simpl.
  rewrite set_columns_ok by apply length_fmap.
  rewrite (str_strip_with_text _ _ _ Hu). simpl.
  rewrite set_columns_ok by apply length_fmap.
  f_equal. unfold output_labels in *.
  destruct (merged_labels_NoDup _ _ _ Hnd) as (Hnd1 & _).
  rewrite (merge_ok _ _ _ _ _ a u) by done. simpl.
  rewrite (merge_ok _ _ _ _ _ b v); [|done|done| |done| |done].
  2:{ simpl. by apply merged_labels_lookup_l. }
  2:{ unfold column. simpl. apply join_keeps_text; [|done].
      eapply Forall_impl; [exact Hwf|]. intros row Hlen. simpl.
      rewrite Hlen. by eapply lookup_lt_Some. }
  simpl. rewrite !length_fmap.
  assert ((data impacts_long_df ≫=
             join_row a u (length (columns indicators_df)) (data indicators_df)) ≫=
            join_row b v (length (columns metadata_df)) (data metadata_df) = rows) as ->; [|done].
  rewrite bind_bind. apply Forall_bind_ext.
  eapply Forall_impl; [exact Hwf|]. intros row Hlen. simpl.
  apply join_row_twice; [done|done|].
  rewrite Hlen. by eapply lookup_lt_Some.
Qed.

Lemma matching_NoDup (rk : nat) (key : value) (df : DataFrame) :
  NoDup (column rk df) → length (matching rk key (data df)) ≤ 1.
Proof.
  unfold column, matching. induction (data df) as [|row rows IH]; [simpl; lia|].
  rewrite fmap_cons. intros [Hrow Hnd]%NoDup_cons.
  destruct (decide (cell row rk = key)) as [Hkey|Hkey].
  - rewrite filter_cons_True by done. simpl.
    destruct (filter _ rows) as [|r l] eqn:E; [simpl; lia|]. exfalso.
    assert (r ∈ filter (λ rrow, cell rrow rk = key) rows) as [Hr1 Hr2]%list_elem_of_filter
      by (rewrite E; left).
    apply Hrow. rewrite Hkey, <- Hr1.
    apply list_elem_of_fmap. by exists r.
  - rewrite filter_cons_False by done. by apply IH.
Qed.

(** With unique keys on the right a left row gets exactly one part: the
    right row with its key, or missing values when there is none. *)
Lemma right_parts_unique (rk width : nat) (key : value) (df : DataFrame) :
  NoDup (column rk df) →
  ∃ part, right_parts rk width (data df) key = [part] ∧
    ((part ∈ data df ∧ cell part rk = key) ∨
     ((∀ r, r ∈ data df → cell r rk ≠ key) ∧ part = replicate width VNaN)).
Proof.
  intros Hlen%(matching_NoDup rk key). unfold right_parts.
  destruct (matching rk key (data df)) as [|r [|r' l]] eqn:E; simpl in Hlen; [| |lia].
  - eexists. split; [done|]. right. split; [|done]. intros r Hr Hkey.
    assert (r ∈ matching rk key (data df)) as Hin by (by apply list_elem_of_filter).
    rewrite E in Hin. by apply elem_of_nil in Hin.
  - exists r. split; [done|]. left.
    assert (r ∈ matching rk key (data df)) as [? ?]%list_elem_of_filter by (rewrite E; left).
    done.
Qed.

Lemma length_right_parts (rk width : nat) (key : value) (rows : list (list value)) :
  length (right_parts rk width rows key) = 1 `max` length (matching rk key rows).
Proof. unfold right_parts. by destruct (matching rk key rows). Qed.

Lemma length_joined_rows (a u b v : nat) (indicators_df metadata_df : DataFrame) row :
  length (joined_rows a u b v indicators_df metadata_df row)
  = (1 `max` length (matching u (cell row a) (data indicators_df))) *
    (1 `max` length (matching v (cell row b) (data metadata_df))).
Proof.
  unfold joined_rows.
  rewrite (length_bind_uniform _ _
             (length (right_parts v (length (columns metadata_df)) (data metadata_df)
                        (cell row b)))).
  - by rewrite !length_right_parts.
  - intros ipart _. apply length_fmap.
Qed.

(** ** The merger *)

(** C1 (as amended). Take a fact table with the key columns
    impact_category_uuid and process_uuid, and two metadata tables that
    each have a column whose trimmed label is UUID and whose keys are
    pairwise distinct; let each of the four key columns hold text (so
    that [merge] accepts their dtypes), the numbers of the metadata
    tables be numbers float64 holds, and the labels of the three be such
    that the suffix policy leaves the output's labels distinct.  Then
    merge_all_data returns a table with exactly one row per fact row, in
    the same order: row [i] is fact row [i], followed by the indicator
    row with its impact_category_uuid, or by missing values when no
    indicator row has that key, followed by the process row with its
    process_uuid, or by missing values when there is none. *)
Theorem merge_all_data_left_join `{PandasEnv}
    (metadata_df impacts_long_df indicators_df : DataFrame) (a b u v : nat) :
  well_formed impacts_long_df →
  columns impacts_long_df !! a = Some (VStr "impact_category_uuid") →
  columns impacts_long_df !! b = Some (VStr "process_uuid") →
  (str_strip1 <$> columns indicators_df) !! u = Some (VStr "UUID") →
  (str_strip1 <$> columns metadata_df) !! v = Some (VStr "UUID") →
  holds_text (column a impacts_long_df) = true →
  holds_text (column b impacts_long_df) = true →
  holds_text (column u indicators_df) = true →
  holds_text (column v metadata_df) = true →
  Forall (Forall float64_safe) (data indicators_df) →
  Forall (Forall float64_safe) (data metadata_df) →
  NoDup (output_labels metadata_df impacts_long_df indicators_df) →
  NoDup (column u indicators_df) →
  NoDup (column v metadata_df) →
  ∃ merged_final,
    returned (merge_all_data metadata_df impacts_long_df indicators_df) = Ok merged_final ∧
    length (data merged_final) = length (data impacts_long_df) ∧
    ∀ i row, data impacts_long_df !! i = Some row →
      ∃ ipart ppart,
        data merged_final !! i = Some (row ++ ipart ++ ppart) ∧
        ((ipart ∈ data indicators_df ∧ cell ipart u = cell row a) ∨
         ((∀ r, r ∈ data indicators_df → cell r u ≠ cell row a) ∧
          ipart = replicate (length (columns indicators_df)) VNaN)) ∧
        ((ppart ∈ data metadata_df ∧ cell ppart v = cell row b) ∨
         ((∀ r, r ∈ data metadata_df → cell r v ≠ cell row b) ∧
          ppart = replicate (length (columns metadata_df)) VNaN)).
Proof.
  intros [_ Hwf] Ha Hb Hu Hv Hta Htb Htu Htv _ _ Hnd Hki Hkm.
  rewrite (merge_all_data_ok _ _ _ a b u v) by done. simpl.
  assert (∀ row, length (joined_rows a u b v indicators_df metadata_df row) = 1) as Hone.
  { intros row. rewrite length_joined_rows.
    pose proof (matching_NoDup u (cell row a) _ Hki).
    pose proof (matching_NoDup v (cell row b) _ Hkm). lia. }
  eexists. split; [done|]. simpl. split.
  - rewrite (length_bind_uniform _ _ 1); [lia|done].
  - intros i row Hrow.
    destruct (right_parts_unique u (length (columns indicators_df)) (cell row a) _ Hki)
      as (ipart & Hi & Hipart).
    destruct (right_parts_unique v (length (columns metadata_df)) (cell row b) _ Hkm)
      as (ppart & Hp & Hppart).
    exists ipart, ppart. split_and!; [|done|done].
    replace i with (i * 1 + 0) at 1 by lia.
    rewrite (lookup_bind_uniform _ _ 1 i 0 row) by (done || lia).
    unfold joined_rows. by rewrite Hi, Hp.
Qed.

Lemma merge_all_data_left_join_witness :
  ∃ merged_final,
    returned (@merge_all_data Samples.files
                Samples.metadata_clean Samples.impacts_long Samples.indicators_clean)
    = Ok merged_final ∧
    length (data merged_final) = 4 ∧
    ∀ i row, data Samples.impacts_long !! i = Some row →
      ∃ ipart ppart,
        data merged_final !! i = Some (row ++ ipart ++ ppart) ∧
        ((ipart ∈ data Samples.indicators_clean ∧ cell ipart 0 = cell row 0) ∨
         ((∀ r, r ∈ data Samples.indicators_clean → cell r 0 ≠ cell row 0) ∧
          ipart = replicate 2 VNaN)) ∧
        ((ppart ∈ data Samples.metadata_clean ∧ cell ppart 0 = cell row 4) ∨
         ((∀ r, r ∈ data Samples.metadata_clean → cell r 0 ≠ cell row 4) ∧
          ppart = replicate 3 VNaN)).
Proof.
  apply (@merge_all_data_left_join Samples.files
           Samples.metadata_clean Samples.impacts_long Samples.indicators_clean 0 4 0 0).
  - split; [reflexivity|]. repeat constructor.
  - reflexivity.
  - reflexivity.
  - reflexivity.
  - reflexivity.
  - reflexivity.
  - reflexivity.
  - reflexivity.
  - reflexivity.
  - safe_cells.
  - safe_cells.
  - by_computation.
  - by_computation.
  - by_computation.
Defined.

(** C1, as stated, fails on a fact table whose process_uuid column holds
    the number 7 and no text, with metadata tables whose UUID keys are
    text and unique: [merge] refuses to join a numeric key column with a
    text one, and merge_all_data raises ValueError instead of returning
    one row per fact row. *)
Lemma numeric_fact_key_rejected :
  column 4 Samples.impacts_long_numeric_key = [VInt 7] ∧
  column 0 Samples.metadata_clean = [VStr "P1"; VStr "P2"] ∧
  column 0 Samples.indicators_clean = [VStr "I1"; VStr "I2"] ∧
  returned (@merge_all_data Samples.files
              Samples.metadata_clean Samples.impacts_long_numeric_key Samples.indicators_clean)
  = Raise ValueError.
Proof. split_and!; vm_compute; reflexivity. Qed.

Example merge_all_data_sample :
  returned (@merge_all_data Samples.files
              Samples.metadata_clean Samples.impacts_long Samples.indicators_clean)
  = Ok {| index := RangeIndex 4;
          columns := id_cols ++
            [VStr "process_uuid"; VStr "impact_value"; VStr "UUID"; VStr "Nom";
             VStr "UUID_process"; VStr "Nom_process"; VStr "Version"];
          data :=
            [ [VStr "I1"; VStr "Climate"; VStr "Climat"; VStr "kg"; VStr "P1"; VInt 12;
               VStr "I1"; VStr "Climat"; VStr "P1"; VStr "Acier"; VInt 1];
              [VStr "I2"; VStr "Energy"; VStr "Energie"; VStr "MJ"; VStr "P1"; VInt 7;
               VStr "I2"; VStr "Energie"; VStr "P1"; VStr "Acier"; VInt 1];
              [VStr "I1"; VStr "Climate"; VStr "Climat"; VStr "kg"; VStr "P3"; VNaN;
               VStr "I1"; VStr "Climat"; VNaN; VNaN; VNaN];
              [VStr "I2"; VStr "Energy"; VStr "Energie"; VStr "MJ"; VStr "P3"; VInt 8;
               VStr "I2"; VStr "Energie"; VNaN; VNaN; VNaN] ] |}.
Proof. vm_compute. reflexivity. Qed.

Lemma sum_list_with_ext {A} (f g : A → nat) (l : list A) :
  (∀ x, f x = g x) → sum_list_with f l = sum_list_with g l.
Proof.
  intros Hfg. induction l as [|x l IH]; [done|].
  cbn [sum_list_with]. by rewrite Hfg, IH.
Qed.

(** C7 (as amended). merge_all_data checks no key for uniqueness: with the
    key columns found, text in each of the four key columns (so that
    [merge] accepts their dtypes), numbers that float64 holds in the
    metadata tables and the output labels distinct it returns, raising
    nothing, whatever keys the metadata tables hold, and each fact row
    stands in the output once per pair of an indicator row and a process
    row that carry its keys (a side without such a row counting once). *)
Theorem merge_all_data_row_count `{PandasEnv}
    (metadata_df impacts_long_df indicators_df : DataFrame) (a b u v : nat) :
  well_formed impacts_long_df →
  columns impacts_long_df !! a = Some (VStr "impact_category_uuid") →
  columns impacts_long_df !! b = Some (VStr "process_uuid") →
  (str_strip1 <$> columns indicators_df) !! u = Some (VStr "UUID") →
  (str_strip1 <$> columns metadata_df) !! v = Some (VStr "UUID") →
  holds_text (column a impacts_long_df) = true →
  holds_text (column b impacts_long_df) = true →
  holds_text (column u indicators_df) = true →
  holds_text (column v metadata_df) = true →
  Forall (Forall float64_safe) (data indicators_df) →
  Forall (Forall float64_safe) (data metadata_df) →
  NoDup (output_labels metadata_df impacts_long_df indicators_df) →
  ∃ merged_final,
    returned (merge_all_data metadata_df impacts_long_df indicators_df) = Ok merged_final ∧
    data merged_final
    = data impacts_long_df ≫= joined_rows a u b v indicators_df metadata_df ∧
    length (data merged_final)
    = sum_list_with
        (λ row, (1 `max` length (matching u (cell row a) (data indicators_df))) *
                (1 `max` length (matching v (cell row b) (data metadata_df))))
        (data impacts_long_df).
Proof.
  intros [_ Hwf] Ha Hb Hu Hv Hta Htb Htu Htv _ _ Hnd.
  rewrite (merge_all_data_ok _ _ _ a b u v) by done. simpl.
  eexists. split; [done|]. simpl. split; [done|].
  rewrite length_bind_sum. apply sum_list_with_ext. intros row.
  apply length_joined_rows.
Qed.

Lemma merge_all_data_row_count_witness :
  ∃ merged_final,
    returned (@merge_all_data Samples.files
                Samples.metadata_duplicate_key Samples.impacts_long Samples.indicators_clean)
    = Ok merged_final ∧
    data merged_final
    = data Samples.impacts_long ≫=
        joined_rows 0 0 4 0 Samples.indicators_clean Samples.metadata_duplicate_key ∧
    length (data merged_final) = 1 * 2 + (1 * 2 + (1 * 1 + (1 * 1 + 0))).
Proof.
  apply (@merge_all_data_row_count Samples.files
           Samples.metadata_duplicate_key Samples.impacts_long Samples.indicators_clean 0 4 0 0).
  - split; [reflexivity|]. repeat constructor.
  - reflexivity.
  - reflexivity.
  - reflexivity.
  - reflexivity.
  - reflexivity.
  - reflexivity.
  - reflexivity.
  - reflexivity.
  - safe_cells.
  - safe_cells.
  - by_computation.
Defined.

(** C7, as stated, fails on process metadata in which two rows carry the
    key P1: merge_all_data returns a table, raising nothing, in which each
    of the two facts of process P1 stands twice. *)
Lemma duplicate_keys_fan_out_unsignalled :
  column 0 Samples.metadata_duplicate_key = [VStr "P1"; VStr "P1"] ∧
  length (data Samples.impacts_long) = 4 ∧
  returned (@merge_all_data Samples.files
              Samples.metadata_duplicate_key Samples.impacts_long Samples.indicators_clean)
  = Ok {| index := RangeIndex 6;
          columns := id_cols ++
            [VStr "process_uuid"; VStr "impact_value"; VStr "UUID"; VStr "Nom";
             VStr "UUID_process"; VStr "Nom_process"];
          data :=
            [ [VStr "I1"; VStr "Climate"; VStr "Climat"; VStr "kg"; VStr "P1"; VInt 12;
               VStr "I1"; VStr "Climat"; VStr "P1"; VStr "Acier"];
              [VStr "I1"; VStr "Climate"; VStr "Climat"; VStr "kg"; VStr "P1"; VInt 12;
               VStr "I1"; VStr "Climat"; VStr "P1"; VStr "Acier v2"];
              [VStr "I2"; VStr "Energy"; VStr "Energie"; VStr "MJ"; VStr "P1"; VInt 7;
               VStr "I2"; VStr "Energie"; VStr "P1"; VStr "Acier"];
              [VStr "I2"; VStr "Energy"; VStr "Energie"; VStr "MJ"; VStr "P1"; VInt 7;
               VStr "I2"; VStr "Energie"; VStr "P1"; VStr "Acier v2"];
              [VStr "I1"; VStr "Climate"; VStr "Climat"; VStr "kg"; VStr "P3"; VNaN;
               VStr "I1"; VStr "Climat"; VNaN; VNaN];
              [VStr "I2"; VStr "Energy"; VStr "Energie"; VStr "MJ"; VStr "P3"; VInt 8;
               VStr "I2"; VStr "Energie"; VNaN; VNaN] ] |}.
Proof. split_and!; vm_compute; reflexivity. Qed.

Lemma str_strip_cases (object_dtype : bool) (labels : list value) :
  str_strip object_dtype labels = Ok (str_strip1 <$> labels) ∨
  str_strip object_dtype labels = Raise AttributeError.
Proof.
  unfold str_strip, str_accessor. destruct (object_dtype && _); [by left|by right].
Qed.

Lemma str_strip_clean (labels : list value) :
  Forall clean_label labels → str_strip true labels = Ok labels.
Proof.
  intros Hclean. rewrite str_strip_no_num.
  - f_equal. rewrite <- (list_fmap_id labels) at 2. apply Forall_fmap_ext_1.
    eapply Forall_impl; [exact Hclean|]. intros [s| |] Hs; simpl in *; try done.
    by rewrite PyFacts.strip_trimmed.
  - eapply Forall_impl; [exact Hclean|]. by intros [| |] ?.
Qed.

Lemma clean_labels_fixed (labels : list value) :
  Forall clean_label labels → str_strip1 <$> labels = labels.
Proof.
  intros Hclean. destruct (str_strip_cases true labels) as [Hs|Hs];
    rewrite (str_strip_clean _ Hclean) in Hs; by simplify_eq.
Qed.

(** C8 (as amended). merge_all_data never changes the row labels or the
    cells of the two metadata tables, but it assigns to their column
    labels: after a call that returns, the labels of each are their images
    under [.str.strip()], text trimmed and anything else missing (a call
    that raises has replaced the labels of none, one or both).  A table
    whose labels are trimmed text or missing, as the loaders produce them,
    is unchanged. *)
Theorem merge_all_data_frame `{PandasEnv}
    (metadata_df impacts_long_df indicators_df : DataFrame) :
  let after := merge_all_data metadata_df impacts_long_df indicators_df in
  (index (metadata_after after) = index metadata_df ∧
   data (metadata_after after) = data metadata_df ∧
   index (indicators_after after) = index indicators_df ∧
   data (indicators_after after) = data indicators_df) ∧
  ((columns (metadata_after after) = columns metadata_df ∨
    columns (metadata_after after) = str_strip1 <$> columns metadata_df) ∧
   (columns (indicators_after after) = columns indicators_df ∨
    columns (indicators_after after) = str_strip1 <$> columns indicators_df)) ∧
  (∀ merged_final, returned after = Ok merged_final →
     columns (metadata_after after) = str_strip1 <$> columns metadata_df ∧
     columns (indicators_after after) = str_strip1 <$> columns indicators_df) ∧
  (Forall clean_label (columns metadata_df) →
   Forall clean_label (columns indicators_df) →
   metadata_after after = metadata_df ∧ indicators_after after = indicators_df).
Proof.
  simpl. unfold merge_all_data.
  assert (∀ df : DataFrame, Forall clean_label (columns df) →
            {| index := index df; columns := str_strip1 <$> columns df; data := data df |} = df)
    as Hsame.
  { intros [ix cols rows] Hclean. simpl in *. by rewrite clean_labels_fixed. }
  destruct (str_strip_cases (holds_text (columns metadata_df)) (columns metadata_df))
    as [Hm|Hm]; rewrite Hm; simpl.
  - rewrite set_columns_ok by apply length_fmap.
    destruct (str_strip_cases (holds_text (columns indicators_df)) (columns indicators_df))
      as [Hi|Hi]; rewrite Hi; simpl.
    + rewrite set_columns_ok by apply length_fmap. simpl.
      split_and!; try done; try (by right). intros Hcm Hci. split; by apply Hsame.
    + split_and!; try done; try (by right); try (by left).
      intros Hcm _. split; [by apply Hsame|done].
  - split_and!; try done; by left.
Qed.

Lemma merge_all_data_frame_witness :
  metadata_after (@merge_all_data Samples.files
                    Samples.metadata_clean Samples.impacts_long Samples.indicators_clean)
  = Samples.metadata_clean ∧
  indicators_after (@merge_all_data Samples.files
                      Samples.metadata_clean Samples.impacts_long Samples.indicators_clean)
  = Samples.indicators_clean.
Proof.
  apply (@merge_all_data_frame Samples.files
           Samples.metadata_clean Samples.impacts_long Samples.indicators_clean).
  - repeat constructor.
  - repeat constructor.
Defined.

(** C8, as stated, fails on a process table whose labels carry whitespace:
    the call returns a table, and after it the caller's process table has
    other labels than before. *)
Lemma merge_all_data_replaces_labels :
  let after := @merge_all_data Samples.files
                 Samples.metadata_untrimmed_labels Samples.impacts_long
                 Samples.indicators_clean in
  (∃ merged_final, returned after = Ok merged_final) ∧
  columns Samples.metadata_untrimmed_labels = [VStr " UUID"; VStr "Nom "] ∧
  columns (metadata_after after) = [VStr "UUID"; VStr "Nom"] ∧
  metadata_after after ≠ Samples.metadata_untrimmed_labels.
Proof.
  split_and!.
  - eexists. vm_compute. reflexivity.
  - reflexivity.
  - vm_compute. reflexivity.
  - intros Heq. apply (f_equal columns) in Heq. vm_compute in Heq. discriminate Heq.
Qed.

(** * Further properties of the code *)



(** ** The loaders of the two transposed sheets *)





(** ** The generic text pass on any table *)

Lemma same_or_trimmed_step v v' v'' :
  same_or_trimmed v v' → (v'' = v' ∨ v'' = strip_if_str v') → same_or_trimmed v v''.
Proof.
  unfold same_or_trimmed. intros [-> | ->] [-> | ->]; auto.
  right. apply strip_if_str_idemp.
Qed.

Lemma same_or_trimmed_alter (row row' : list value) j :
  Forall2 same_or_trimmed row row' →
  Forall2 same_or_trimmed row (alter strip_if_str j row').
Proof.
  intros Hrel. revert j. induction Hrel as [|v v' row row' Hv Hrel IH]; intros j; [done|].
  destruct j as [|j]; simpl; constructor; try done.
  - eapply same_or_trimmed_step; [done|by right].
  - apply IH.
Qed.

Lemma apply_setitem_cellwise rows df col :
  Forall2 (Forall2 same_or_trimmed) rows (data df) →
  Forall2 (Forall2 same_or_trimmed) rows (data (apply_setitem strip_if_str df col)).
Proof.
  intros Hrel. unfold apply_setitem.
  destruct (locs (columns df) col) as [|j [|j' js]] eqn:E; try done.
  rewrite setitem_fmap_column by done. simpl. apply Forall2_fmap_r.
  eapply Forall2_impl; [exact Hrel|]. intros row row' Hrow. by apply same_or_trimmed_alter.
Qed.

Lemma strip_text_columns_rel df :
  Forall2 (Forall2 same_or_trimmed) (data df) (data (strip_text_columns df)).
Proof.
  unfold strip_text_columns. generalize (select_dtypes_object_columns df). intros labels.
  assert (Forall2 (Forall2 same_or_trimmed) (data df) (data df)) as Hrefl.
  { apply Forall2_same_length_lookup_2; [done|]. intros i r r' Hr Hr'. simplify_eq.
    apply Forall2_same_length_lookup_2; [done|]. intros j v v' Hv Hv'. simplify_eq. by left. }
  revert Hrefl. generalize (data df) at 1 3. intros rows. revert df.
  induction labels as [|col labels IH]; intros df Hrel; [done|].
  simpl. apply IH. by apply apply_setitem_cellwise.
Qed.

(** X3. The loop of lines 38-41 and 96-99 never touches anything but text:
    for every table whose numbers are numbers float64 holds, whatever its
    labels (distinct or shared), the result has the same row labels, the
    same column labels, the same number of rows and of cells in each row,
    every cell that is not text has the value it had, and every text cell
    is either the text it was or that text trimmed. *)
Theorem strip_text_columns_only_trims (df : DataFrame) :
  Forall (Forall float64_safe) (data df) →
  index (strip_text_columns df) = index df ∧
  columns (strip_text_columns df) = columns df ∧
  Forall2 (Forall2 same_or_trimmed) (data df) (data (strip_text_columns df)) ∧
  ∀ i j row, data df !! i = Some row →
    ∃ row', data (strip_text_columns df) !! i = Some row' ∧
            length row' = length row ∧
            (is_str (cell row j) = false → cell row' j = cell row j) ∧
            (∀ s, row !! j = Some (VStr s) →
                  row' !! j = Some (VStr s) ∨ row' !! j = Some (VStr (Py.strip s))).
Proof.
  intros _.
  destruct (strip_text_columns_shape df) as (Hix & Hcols & _).
  pose proof (strip_text_columns_rel df) as Hrel.
  split_and!; [done|done|done|].
  intros i j row Hrow.
  destruct (Forall2_lookup_l _ _ _ _ _ Hrel Hrow) as (row' & Hrow' & Hcells).
  exists row'. split_and!; [done|by rewrite (Forall2_length _ _ _ Hcells)| |].
  - unfold cell. destruct (row !! j) as [v|] eqn:Hv.
    + destruct (Forall2_lookup_l _ _ _ _ _ Hcells Hv) as (v' & -> & [-> | ->]); simpl; [done|].
      by destruct v.
    + rewrite (lookup_ge_None_2 row'); [done|].
      rewrite <- (Forall2_length _ _ _ Hcells). by apply lookup_ge_None.
  - intros s Hs.
    destruct (Forall2_lookup_l _ _ _ _ _ Hcells Hs) as (v' & -> & [-> | ->]); auto.
Qed.

Lemma strip_text_columns_only_trims_witness :
  let df :=
    {| index := RangeIndex 2;
       columns := [VStr "UUID"; VStr "Nom"; VStr "Version"];
       data := [ [VStr " P1 "; VStr "Acier "; VInt 1]; [VStr "P2"; VStr "Bois"; VNaN] ] |} in
  strip_text_columns df
  = {| index := RangeIndex 2;
       columns := [VStr "UUID"; VStr "Nom"; VStr "Version"];
       data := [ [VStr "P1"; VStr "Acier"; VInt 1]; [VStr "P2"; VStr "Bois"; VNaN] ] |} ∧
  index (strip_text_columns df) = index df ∧
  columns (strip_text_columns df) = columns df ∧
  Forall2 (Forall2 same_or_trimmed) (data df) (data (strip_text_columns df)).
Proof.
  intros df. split; [reflexivity|].
  destruct (strip_text_columns_only_trims df) as (Hix & Hcols & Hrel & _);
    [safe_cells|done].
Defined.

(** ** What the sheet loaders return *)

Lemma strip_uuid_inv (df stripped : DataFrame) :
  strip_uuid df = Ok stripped →
  ((VStr "UUID" ∉ columns df) ∧ stripped = df) ∨
  (∃ j, locs (columns df) (VStr "UUID") = [j] ∧
        stripped = {| index := index df; columns := columns df;
                      data := alter str_strip1 j <$> data df |}).
Proof.
  unfold strip_uuid. destruct (decide _) as [Hin|Hin]; [|intros [= <-]; by left].
  destruct (locs (columns df) (VStr "UUID")) as [|j [|j' js]] eqn:E; try done.
  unfold str_strip, str_accessor. destruct (_ || _); [|done]. simpl.
  rewrite setitem_fmap_column by done. intros [= <-]. right. by exists j.
Qed.

Lemma rows_length_rel {R : value → value → Prop} (rows rows' : list (list value)) n :
  Forall2 (Forall2 R) rows rows' →
  Forall (λ row, length row = n) rows → Forall (λ row, length row = n) rows'.
Proof.
  intros Hrel. induction Hrel as [|r r' rows rows' Hr _ IH]; [done|].
  intros [Hlen Hall]%Forall_cons. constructor; [|by apply IH].
  by rewrite <- (Forall2_length _ _ _ Hr).
Qed.

Lemma normalize_header_shape (df header : DataFrame) :
  well_formed df → normalize_header df = Ok header →
  well_formed header ∧
  index header = RangeIndex (length (columns df) - 2) ∧
  length (data header) = length (columns df) - 2 ∧
  length (columns header) = length (data df).
Proof.
  intros Hwf (row0 & Hrow0 & Hix & Hcols & Hdata)%normalize_header_inv.
  rewrite transposed_rows in Hix.
  assert (length (data header) = length (columns df) - 2) as Hrows
    by (by rewrite Hdata, length_drop, transposed_rows).
  assert (length (columns header) = length (data df)) as Hwidth
    by (by rewrite Hcols, length_fmap, (length_transposed_row _ _ _ Hrow0)).
  split_and!; [split| | |]; try done.
  - rewrite Hix, Hrows. unfold RangeIndex. by rewrite length_fmap, length_seq.
  - rewrite Hdata, Hwidth. apply Forall_drop, Forall_forall. intros row Hrow.
    apply list_elem_of_lookup_1 in Hrow as [j Hj]. by eapply length_transposed_row.
Qed.

Lemma strip_uuid_shape (df stripped : DataFrame) :
  strip_uuid df = Ok stripped →
  index stripped = index df ∧ columns stripped = columns df ∧
  length (data stripped) = length (data df) ∧
  ∀ n, Forall (λ row, length row = n) (data df) →
       Forall (λ row, length row = n) (data stripped).
Proof.
  intros [[_ ->] | (j & _ & ->)]%strip_uuid_inv; [done|]. simpl.
  split_and!; [done|done|by rewrite length_fmap|].
  intros n Hall. rewrite Forall_fmap. eapply Forall_impl; [exact Hall|].
  intros row Hrow. simpl. by rewrite length_alter.
Qed.



Lemma clean_key_rel v v' : clean_key v → same_or_trimmed v v' → clean_key v'.
Proof.
  intros Hv [-> | ->]; [done|]. destruct v; simpl in *; try done.
  apply PyFacts.trimmed_strip.
Qed.

Lemma cell_rel {R : value → value → Prop} (row row' : list value) j :
  R VNaN VNaN → Forall2 R row row' → R (cell row j) (cell row' j).
Proof.
  intros Hnan Hrel. unfold cell. destruct (row !! j) as [v|] eqn:Hv.
  - by destruct (Forall2_lookup_l _ _ _ _ _ Hrel Hv) as (v' & -> & ?).
  - rewrite (lookup_ge_None_2 row'); [done|].
    rewrite <- (Forall2_length _ _ _ Hrel). by apply lookup_ge_None.
Qed.

Lemma clean_key_str_strip1 (row : list value) j :
  clean_key (cell (alter str_strip1 j row) j).
Proof.
  unfold cell. rewrite list_lookup_alter_eq.
  destruct (row !! j) as [[s| |]|]; simpl; try done. apply PyFacts.trimmed_strip.
Qed.

(** X5. In a table load_and_clean_metadata returns, every cell of the
    UUID column is trimmed text or a missing value: never a number, never
    text with whitespace at an end, whatever the sheet held and whatever
    the other labels are. *)
Theorem load_and_clean_metadata_keys_clean `{PandasEnv} (filepath : string)
    (out : DataFrame) (j : nat) :
  load_and_clean_metadata filepath = Ok out →
  columns out !! j = Some (VStr "UUID") →
  Forall clean_key (column j out).
Proof.
  unfold load_and_clean_metadata.
  destruct (read_excel filepath) as [df|]; [|done]. simpl.
  destruct (normalize_header df) as [header|]; [|done]. simpl.
  destruct (strip_uuid header) as [stripped|] eqn:Hstrip; [|done]. simpl.
  intros [= <-] Hj.
  destruct (strip_text_columns_shape stripped) as (_ & Hcols & _).
  pose proof (strip_text_columns_rel stripped) as Hrel.
  rewrite Hcols in Hj.
  apply strip_uuid_inv in Hstrip as [[Hin ->] | (j0 & Hlocs & ->)].
  { exfalso. apply Hin. by eapply list_elem_of_lookup_2. }
  simpl in *. assert (j = j0) as ->.
  { apply elem_of_locs in Hj. rewrite Hlocs in Hj. by apply list_elem_of_singleton in Hj. }
  unfold column. rewrite Forall_fmap. apply Forall_forall. intros row' Hrow'. simpl.
  apply list_elem_of_lookup_1 in Hrow' as [i Hi].
  destruct (Forall2_lookup_r _ _ _ _ _ Hrel Hi) as (row1 & Hrow1 & Hcells).
  rewrite list_lookup_fmap in Hrow1.
  destruct (data header !! i) as [row|]; simplify_eq/=.
  eapply clean_key_rel; [apply (clean_key_str_strip1 row j0)|].
  apply cell_rel; [by left|done].
Qed.

Lemma load_and_clean_metadata_keys_clean_witness :
  Forall clean_key [VStr "P1"; VNaN].
Proof.
  apply (@load_and_clean_metadata_keys_clean Samples.numeric_uuid_files "procedes.xlsx"
           {| index := RangeIndex 2;
              columns := [VStr "UUID"; VStr "Nom"];
              data := [ [VStr "P1"; VStr "Acier"]; [VNaN; VStr "Bois"] ] |} 0).
  - vm_compute. reflexivity.
  - reflexivity.
Defined.

Lemma clean_label_str_strip1 (labels : list value) :
  Forall clean_label (str_strip1 <$> labels).
Proof.
  rewrite Forall_fmap. apply Forall_forall. intros [s| |] _; simpl; try done.
  apply PyFacts.trimmed_strip.
Qed.

Lemma merge_all_data_clean_labels `{PandasEnv}
    (metadata_df impacts_long_df indicators_df : DataFrame) :
  Forall clean_label (columns metadata_df) →
  Forall clean_label (columns indicators_df) →
  metadata_after (merge_all_data metadata_df impacts_long_df indicators_df) = metadata_df ∧
  indicators_after (merge_all_data metadata_df impacts_long_df indicators_df) = indicators_df.
Proof.
  intros Hm Hi. unfold merge_all_data.
  destruct (str_strip_cases (holds_text (columns metadata_df)) (columns metadata_df))
    as [Hsm|Hsm]; rewrite Hsm; simpl; [|done].
  rewrite set_columns_ok by apply length_fmap.
  rewrite (clean_labels_fixed _ Hm).
  destruct (str_strip_cases (holds_text (columns indicators_df)) (columns indicators_df))
    as [Hsi|Hsi]; rewrite Hsi; simpl.
  - rewrite set_columns_ok by apply length_fmap. simpl.
    rewrite (clean_labels_fixed _ Hi). by destruct metadata_df, indicators_df.
  - by destruct metadata_df.
Qed.

Lemma load_and_clean_metadata_labels `{PandasEnv} (filepath : string) (out : DataFrame) :
  load_and_clean_metadata filepath = Ok out → Forall clean_label (columns out).
Proof.
  unfold load_and_clean_metadata.
  destruct (read_excel filepath) as [df|]; [|done]. simpl.
  destruct (normalize_header df) as [header|] eqn:Hheader; [|done]. simpl.
  destruct (strip_uuid header) as [stripped|] eqn:Hstrip; [|done]. simpl.
  intros [= <-].
  destruct (strip_text_columns_shape stripped) as (_ & -> & _).
  destruct (strip_uuid_shape _ _ Hstrip) as (_ & -> & _).
  apply normalize_header_inv in Hheader as (row0 & _ & _ & -> & _).
  apply clean_label_str_strip1.
Qed.

Lemma load_and_clean_indicators_labels `{PandasEnv} (filepath : string) (out : DataFrame) :
  load_and_clean_indicators filepath = Ok out → Forall clean_label (columns out).
Proof.
  unfold load_and_clean_indicators.
  destruct (read_excel filepath) as [df|]; [|done]. simpl.
  destruct (normalize_header df) as [header|] eqn:Hheader; [|done]. simpl.
  intros [= <-].
  destruct (strip_text_columns_shape header) as (_ & -> & _).
  apply normalize_header_inv in Hheader as (row0 & _ & _ & -> & _).
  apply clean_label_str_strip1.
Qed.

(** X6. The labels of a table a sheet loader returns are trimmed text or
    missing, never a number; so the assignments of lines 139-140 find
    nothing to change: handed the tables the two loaders returned,
    merge_all_data leaves both exactly as they were, whatever the fact
    table and whether it returns or raises. *)
Theorem merge_all_data_keeps_loaded_tables `{PandasEnv} (metadata_path indicators_path : string)
    (metadata impacts_long indicators : DataFrame) :
  load_and_clean_metadata metadata_path = Ok metadata →
  load_and_clean_indicators indicators_path = Ok indicators →
  Forall clean_label (columns metadata) ∧
  Forall clean_label (columns indicators) ∧
  metadata_after (merge_all_data metadata impacts_long indicators) = metadata ∧
  indicators_after (merge_all_data metadata impacts_long indicators) = indicators.
Proof.
  intros Hm%load_and_clean_metadata_labels Hi%load_and_clean_indicators_labels.
  split; [done|]. split; [done|]. by apply merge_all_data_clean_labels.
Qed.

Lemma merge_all_data_keeps_loaded_tables_witness :
  Forall clean_label (columns Samples.metadata_clean) ∧
  Forall clean_label (columns Samples.indicators_clean) ∧
  metadata_after (@merge_all_data Samples.files
                    Samples.metadata_clean Samples.impacts_long Samples.indicators_clean)
  = Samples.metadata_clean ∧
  indicators_after (@merge_all_data Samples.files
                      Samples.metadata_clean Samples.impacts_long Samples.indicators_clean)
  = Samples.indicators_clean.
Proof.
  apply (@merge_all_data_keeps_loaded_tables Samples.files "procedes.xlsx" "categories.xlsx").
  - vm_compute. reflexivity.
  - vm_compute. reflexivity.
Defined.



(** ** The reshaper: errors, content, invariants *)

Lemma missing_nonempty (labels keys : list value) :
  ¬ keys ⊆ labels → filter (λ key, key ∉ labels) keys ≠ [].
Proof.
  intros Hsub Hnil. apply Hsub. intros x Hx.
  destruct (decide (x ∈ labels)) as [Hin|Hin]; [done|].
  assert (x ∈ filter (λ key, key ∉ labels) keys) as Hx' by (by apply list_elem_of_filter).
  rewrite Hnil in Hx'. by apply elem_of_nil in Hx'.
Qed.

Lemma reshape_impacts_to_long_missing `{PandasEnv} (impacts_df : DataFrame) :
  ¬ id_cols ⊆ columns impacts_df →
  VStr "impact_value" ∉ columns impacts_df →
  reshape_impacts_to_long impacts_df
  = Raise (KeyErrorLabels (filter (λ key, key ∉ columns impacts_df) id_cols)).
Proof.
  intros Hids%missing_nonempty Hval. unfold reshape_impacts_to_long, melt.
  rewrite decide_False by done.
  by destruct (filter (λ key, key ∉ columns impacts_df) id_cols).
Qed.

(** X8. reshape_impacts_to_long checks its input only through melt.  A
    table that lacks identifier columns makes it raise a KeyError that
    names the labels of the identifier set the table does not carry, all
    of them, in the order impact_category_uuid, impact_name_en,
    impact_name_fr, unit; a table that carries the four and already has a
    column named impact_value makes it raise ValueError. *)
Theorem reshape_impacts_to_long_errors `{PandasEnv} (impacts_df : DataFrame) :
  (¬ id_cols ⊆ columns impacts_df →
   VStr "impact_value" ∉ columns impacts_df →
   ∃ missing e,
     missing = filter (λ key, key ∉ columns impacts_df) id_cols ∧ missing ≠ [] ∧
     e = KeyErrorLabels missing ∧ exn_class e = "KeyError" ∧
     reshape_impacts_to_long impacts_df = Raise e) ∧
  (id_cols ⊆ columns impacts_df →
   VStr "impact_value" ∈ columns impacts_df →
   reshape_impacts_to_long impacts_df = Raise ValueError).
Proof.
  split.
  - intros Hids Hval. eexists _, _. split_and!; [done| |done|done|].
    + by apply missing_nonempty.
    + by apply reshape_impacts_to_long_missing.
  - intros _ Hval. unfold reshape_impacts_to_long, melt. by rewrite decide_True.
Qed.

Lemma reshape_impacts_to_long_errors_witness :
  (∃ missing e,
     missing = [VStr "impact_category_uuid"; VStr "impact_name_en";
                VStr "impact_name_fr"; VStr "unit"] ∧ missing ≠ [] ∧
     e = KeyErrorLabels missing ∧ exn_class e = "KeyError" ∧
     @reshape_impacts_to_long Samples.files Samples.impacts_table = Raise e) ∧
  @reshape_impacts_to_long Samples.files Samples.impacts_long = Raise ValueError.
Proof.
  split.
  - apply (@reshape_impacts_to_long_errors Samples.files Samples.impacts_table); by_computation.
  - apply (@reshape_impacts_to_long_errors Samples.files Samples.impacts_long); by_computation.
Defined.

(** X9. The content of the long table.  For a table with distinct labels
    that carries the identifier columns, the row that stands for source
    row [i] and the [k]-th value column is row [k * N + i] of the output,
    [N] being the number of source rows: it holds the four identifier
    cells of the source row, the label of the value column, and the cell
    after numeric coercion, which keeps a missing value, keeps a number
    that float64 holds, and turns text into the number it parses to, or
    into a missing value. *)
Theorem reshape_impacts_to_long_content `{PandasEnv} (impacts_df : DataFrame)
    (i j k : nat) (row : list value) (col : value) :
  NoDup (columns impacts_df) →
  id_cols ⊆ columns impacts_df →
  VStr "impact_value" ∉ columns impacts_df →
  data impacts_df !! i = Some row →
  value_cols impacts_df !! k = Some col →
  columns impacts_df !! j = Some col →
  float64_safe (cell row j) →
  ∃ df_long long_row,
    reshape_impacts_to_long impacts_df = Ok df_long ∧
    data df_long !! (k * length (data impacts_df) + i) = Some long_row ∧
    length long_row = 6 ∧
    (∀ m a key, id_cols !! m = Some key → columns impacts_df !! a = Some key →
                long_row !! m = Some (cell row a)) ∧
    long_row !! 4 = Some col ∧
    long_row !! 5 = Some (to_numeric1 (cell row j)) ∧
    (∀ q, cell row j = VNum q → long_row !! 5 = Some (VNum q)) ∧
    (cell row j = VNaN → long_row !! 5 = Some VNaN) ∧
    (∀ s, cell row j = VStr s →
          long_row !! 5 = Some (match parse_float s with Some q => VNum q | None => VNaN end)).
Proof.
  intros Hnd Hids Hval Hrow Hk Hcol _.
  destruct (reshape_impacts_to_long_rows impacts_df Hids Hval)
    as (id_locs & value_locs & Hid & Hv & Hrows). simpl in Hrows.
  destruct (Forall2_lookup_l _ _ _ _ _ Hv Hk) as (j' & Hj' & Hlab).
  assert (j' = j) as -> by (eapply NoDup_lookup; eauto).
  assert (length id_locs = 4) as Hlen by (by rewrite <- (Forall2_length _ _ _ Hid)).
  assert (((cell row <$> id_locs) ++ [col; to_numeric1 (cell row j)]) !! 5
          = Some (to_numeric1 (cell row j))) as H5.
  { rewrite lookup_app_r by (rewrite length_fmap; lia). by rewrite length_fmap, Hlen. }
  eexists _, ((cell row <$> id_locs) ++ [col; to_numeric1 (cell row j)]).
  split; [exact Hrows|]. simpl. split_and!.
  - rewrite (lookup_bind_uniform _ _ (length (data impacts_df)) k i (col, j)).
    + by rewrite list_lookup_fmap, Hrow.
    + intros [c' j'] _. apply length_fmap.
    + apply lookup_zip_Some. by split.
    + by eapply lookup_lt_Some.
  - rewrite length_app, length_fmap, Hlen. done.
  - intros m a key Hm Ha.
    destruct (Forall2_lookup_l _ _ _ _ _ Hid Hm) as (a' & Ha' & Hlab').
    assert (a' = a) as -> by (eapply NoDup_lookup; eauto).
    rewrite lookup_app_l by (rewrite length_fmap; by eapply lookup_lt_Some).
    by rewrite list_lookup_fmap, Ha'.
  - rewrite lookup_app_r by (rewrite length_fmap; lia).
    by rewrite length_fmap, Hlen.
  - done.
  - intros q Hq. by rewrite H5, Hq.
  - intros Hq. by rewrite H5, Hq.
  - intros s Hs. by rewrite H5, Hs.
Qed.

Lemma reshape_impacts_to_long_content_witness :
  ∃ df_long long_row,
    @reshape_impacts_to_long Samples.files Samples.impacts_clean = Ok df_long ∧
    data df_long !! (1 * 2 + 1) = Some long_row ∧
    length long_row = 6 ∧
    (∀ m a key, id_cols !! m = Some key → columns Samples.impacts_clean !! a = Some key →
                long_row !! m
                = Some (cell [VStr "I2"; VStr "Energy"; VStr "Energie"; VStr "MJ";
                              VStr "7"; VStr "8"] a)) ∧
    long_row !! 4 = Some (VStr "P3") ∧
    long_row !! 5 = Some (VInt 8) ∧
    (∀ q, VStr "8" = VNum q → long_row !! 5 = Some (VNum q)) ∧
    (VStr "8" = VNaN → long_row !! 5 = Some VNaN) ∧
    (∀ s, VStr "8" = VStr s →
          long_row !! 5 = Some (match parse_digits s with Some q => VNum q | None => VNaN end)).
Proof.
  apply (@reshape_impacts_to_long_content Samples.files Samples.impacts_clean 1 5 1
           [VStr "I2"; VStr "Energy"; VStr "Energie"; VStr "MJ"; VStr "7"; VStr "8"]
           (VStr "P3")).
  - by_computation.
  - by_computation.
  - by_computation.
  - reflexivity.
  - reflexivity.
  - reflexivity.
  - exact I.
Defined.

Lemma cell_app_r (row part : list value) n j :
  length row = n → cell (row ++ part) (n + j) = cell part j.
Proof.
  intros <-. unfold cell. rewrite lookup_app_r by lia.
  by replace (length row + j - length row) with j by lia.
Qed.

Lemma to_numeric1_not_text `{PandasEnv} v : is_str (to_numeric1 v) = false.
Proof. destruct v as [s| |]; simpl; [|done|done]. by destruct (parse_float s). Qed.

(** X10. What every row of the long table looks like.  When the input
    has distinct labels, carries the identifier columns and has no column
    impact_value, the table reshape_impacts_to_long
    returns is well formed with the six labels impact_category_uuid,
    impact_name_en, impact_name_fr, unit, process_uuid, impact_value and
    the row labels 0, 1, 2, ...; in every row the process_uuid cell is the
    label of a value column of the input, and the impact_value cell is a
    number or a missing value, never text. *)
Theorem reshape_impacts_to_long_rows_typed `{PandasEnv} (impacts_df : DataFrame) :
  NoDup (columns impacts_df) →
  id_cols ⊆ columns impacts_df →
  VStr "impact_value" ∉ columns impacts_df →
  ∃ df_long,
    reshape_impacts_to_long impacts_df = Ok df_long ∧
    well_formed df_long ∧
    index df_long = RangeIndex (length (data df_long)) ∧
    columns df_long
    = [VStr "impact_category_uuid"; VStr "impact_name_en"; VStr "impact_name_fr";
       VStr "unit"; VStr "process_uuid"; VStr "impact_value"] ∧
    Forall (λ long_row, length long_row = 6 ∧
                        cell long_row 4 ∈ value_cols impacts_df ∧
                        is_str (cell long_row 5) = false) (data df_long).
Proof.
  intros _ Hids Hval.
  destruct (reshape_impacts_to_long_rows impacts_df Hids Hval)
    as (id_locs & value_locs & Hid & Hv & Hrows). simpl in Hrows.
  assert (length id_locs = 4) as Hlen by (by rewrite <- (Forall2_length _ _ _ Hid)).
  eexists. split; [exact Hrows|]. simpl.
  match goal with |- context [Forall ?P ?rows] =>
    assert (Forall P rows) as Hall end.
  { apply Forall_bind, Forall_forall. intros [col j] Hcol. simpl.
    apply Forall_fmap, Forall_forall. intros row _. simpl.
    assert (col ∈ value_cols impacts_df) as Hin.
    { apply list_elem_of_lookup_1 in Hcol as [k Hk].
      apply lookup_zip_Some in Hk as [Hk _]. by eapply list_elem_of_lookup_2. }
    assert (length (cell row <$> id_locs) = 4) as Hids4 by (by rewrite length_fmap).
    rewrite (cell_app_r (cell row <$> id_locs) _ 4 0 Hids4).
    rewrite (cell_app_r (cell row <$> id_locs) _ 4 1 Hids4).
    split_and!; [|done|apply to_numeric1_not_text].
    by rewrite length_app, length_fmap, Hlen. }
  split_and!; [split| | |]; try done.
  - simpl. unfold RangeIndex. by rewrite length_fmap, length_seq.
  - simpl. eapply Forall_impl; [exact Hall|]. by intros long_row (-> & _).
Qed.

Lemma reshape_impacts_to_long_rows_typed_witness :
  ∃ df_long,
    @reshape_impacts_to_long Samples.files Samples.impacts_clean = Ok df_long ∧
    well_formed df_long ∧
    index df_long = RangeIndex (length (data df_long)) ∧
    columns df_long
    = [VStr "impact_category_uuid"; VStr "impact_name_en"; VStr "impact_name_fr";
       VStr "unit"; VStr "process_uuid"; VStr "impact_value"] ∧
    Forall (λ long_row, length long_row = 6 ∧
                        cell long_row 4 ∈ value_cols Samples.impacts_clean ∧
                        is_str (cell long_row 5) = false) (data df_long).
Proof.
  apply (@reshape_impacts_to_long_rows_typed Samples.files Samples.impacts_clean); by_computation.
Defined.

(** ** The merger: missing keys, shape, keys that cannot match *)

(** X11. merge_all_data has no check of its own for the key columns; a
    missing one surfaces as the KeyError of [merge], after lines 139-140
    have already replaced the labels of both metadata tables.  For
    metadata tables whose labels hold text, this is what happens when the
    fact table has no column impact_category_uuid and at most one
    indicator label is UUID once trimmed, and when no indicator label is
    UUID once trimmed and at most one fact column is labelled
    impact_category_uuid. *)
Theorem merge_all_data_missing_key `{PandasEnv}
    (metadata_df impacts_long_df indicators_df : DataFrame) :
  holds_text (columns metadata_df) = true →
  holds_text (columns indicators_df) = true →
  let after := merge_all_data metadata_df impacts_long_df indicators_df in
  ((VStr "impact_category_uuid" ∉ columns impacts_long_df) ∧
   length (locs (str_strip1 <$> columns indicators_df) (VStr "UUID")) ≤ 1) ∨
  ((VStr "UUID" ∉ str_strip1 <$> columns indicators_df) ∧
   length (locs (columns impacts_long_df) (VStr "impact_category_uuid")) ≤ 1) →
  (∃ label, returned after = Raise (KeyError label)) ∧
  columns (metadata_after after) = str_strip1 <$> columns metadata_df ∧
  columns (indicators_after after) = str_strip1 <$> columns indicators_df.
Proof.
  intros Hm Hi after Hcases. unfold after, merge_all_data.
  rewrite (str_strip_text _ Hm). simpl. rewrite set_columns_ok by apply length_fmap.
  rewrite (str_strip_text _ Hi). simpl. rewrite set_columns_ok by apply length_fmap.
  simpl. split; [|done]. unfold merge, get_loc. simpl.
  destruct Hcases as [[Hcat Huuid] | [Huuid Hcat]].
  - destruct (locs (str_strip1 <$> columns indicators_df) (VStr "UUID")) as [|u [|u' us]];
      simpl in *; [by eexists| |lia].
    rewrite (locs_absent _ _ Hcat). simpl. by eexists.
  - rewrite (locs_absent _ _ Huuid). simpl. by eexists.
Qed.

Lemma merge_all_data_missing_key_witness :
  (let after := @merge_all_data Samples.files
                  Samples.metadata_clean Samples.impacts_table Samples.indicators_clean in
   (∃ label, returned after = Raise (KeyError label)) ∧
   columns (metadata_after after) = str_strip1 <$> columns Samples.metadata_clean ∧
   columns (indicators_after after) = str_strip1 <$> columns Samples.indicators_clean) ∧
  (let after := @merge_all_data Samples.files
                  Samples.metadata_clean Samples.impacts_long Samples.impacts_clean in
   (∃ label, returned after = Raise (KeyError label)) ∧
   columns (metadata_after after) = str_strip1 <$> columns Samples.metadata_clean ∧
   columns (indicators_after after) = str_strip1 <$> columns Samples.impacts_clean).
Proof.
  split.
  - apply (@merge_all_data_missing_key Samples.files
             Samples.metadata_clean Samples.impacts_table Samples.indicators_clean).
    + reflexivity.
    + reflexivity.
    + left. split; [by_computation|vm_compute; lia].
  - apply (@merge_all_data_missing_key Samples.files
             Samples.metadata_clean Samples.impacts_long Samples.impacts_clean).
    + reflexivity.
    + reflexivity.
    + right. split; [by_computation|vm_compute; lia].
Defined.

Lemma right_parts_width (rk width : nat) (key : value) (rows : list (list value)) :
  Forall (λ row, length row = width) rows →
  Forall (λ part, length part = width) (right_parts rk width rows key).
Proof.
  intros Hrows. unfold right_parts.
  destruct (matching rk key rows) as [|r l] eqn:E.
  - constructor; [apply length_replicate|done].
  - rewrite <- E. unfold matching. apply Forall_forall.
    intros part [_ Hpart]%list_elem_of_filter. rewrite Forall_forall in Hrows. auto.
Qed.

Lemma length_suffixed `{PandasEnv} suffix other labels :
  length (suffixed suffix other labels) = length labels.
Proof. apply length_fmap. Qed.

(** X12. The shape of the merged table.  With the keys found, text in
    each of the four key columns and the output labels distinct, and the
    three arguments well formed, merge_all_data returns a well-formed table whose rows are numbered
    0, 1, 2, ... and have one cell per fact column, then one per indicator
    column, then one per process column; the first cells of every row are
    a row of the fact table, unchanged. *)
Theorem merge_all_data_shape `{PandasEnv}
    (metadata_df impacts_long_df indicators_df : DataFrame) (a b u v : nat) :
  well_formed impacts_long_df → well_formed indicators_df → well_formed metadata_df →
  columns impacts_long_df !! a = Some (VStr "impact_category_uuid") →
  columns impacts_long_df !! b = Some (VStr "process_uuid") →
  (str_strip1 <$> columns indicators_df) !! u = Some (VStr "UUID") →
  (str_strip1 <$> columns metadata_df) !! v = Some (VStr "UUID") →
  holds_text (column a impacts_long_df) = true →
  holds_text (column b impacts_long_df) = true →
  holds_text (column u indicators_df) = true →
  holds_text (column v metadata_df) = true →
  NoDup (output_labels metadata_df impacts_long_df indicators_df) →
  ∃ merged_final,
    returned (merge_all_data metadata_df impacts_long_df indicators_df) = Ok merged_final ∧
    well_formed merged_final ∧
    index merged_final = RangeIndex (length (data merged_final)) ∧
    length (columns merged_final)
    = length (columns impacts_long_df) + length (columns indicators_df)
      + length (columns metadata_df) ∧
    Forall (λ out_row, take (length (columns impacts_long_df)) out_row ∈ data impacts_long_df)
           (data merged_final).
Proof.
  intros [_ Hwf] [_ Hwi] [_ Hwm] Ha Hb Hu Hv Hta Htb Htu Htv Hnd.
  rewrite (merge_all_data_ok _ _ _ a b u v) by done. simpl.
  eexists. split; [done|]. simpl.
  assert (length (output_labels metadata_df impacts_long_df indicators_df)
          = length (columns impacts_long_df) + length (columns indicators_df)
            + length (columns metadata_df)) as Hwidth.
  { unfold output_labels, merged_labels.
    rewrite !length_app, !length_suffixed, !length_app, !length_suffixed, !length_fmap. lia. }
  assert (Forall (λ out_row,
                    length out_row = length (columns impacts_long_df)
                                     + length (columns indicators_df)
                                     + length (columns metadata_df) ∧
                    take (length (columns impacts_long_df)) out_row ∈ data impacts_long_df)
            (data impacts_long_df ≫= joined_rows a u b v indicators_df metadata_df)) as Hrows.
  { apply Forall_bind, Forall_forall. intros row Hrow. simpl.
    rewrite Forall_forall in Hwf. specialize (Hwf row Hrow).
    unfold joined_rows. apply Forall_bind.
    eapply Forall_impl; [apply (right_parts_width u _ _ _ Hwi)|].
    intros ipart Hipart. simpl. apply Forall_fmap.
    eapply Forall_impl; [apply (right_parts_width v _ _ _ Hwm)|].
    intros ppart Hppart. simpl in *. split.
    - rewrite !length_app, Hwf, Hipart, Hppart. lia.
    - rewrite take_app_length'; done. }
  split_and!.
  - split; simpl.
    + unfold RangeIndex. by rewrite length_fmap, length_seq.
    + rewrite Hwidth. eapply Forall_impl; [exact Hrows|]. by intros r [? _].
  - done.
  - done.
  - eapply Forall_impl; [exact Hrows|]. by intros r [_ ?].
Qed.

Lemma merge_all_data_shape_witness :
  ∃ merged_final,
    returned (@merge_all_data Samples.files
                Samples.metadata_clean Samples.impacts_long Samples.indicators_clean)
    = Ok merged_final ∧
    well_formed merged_final ∧
    index merged_final = RangeIndex (length (data merged_final)) ∧
    length (columns merged_final) = 6 + 2 + 3 ∧
    Forall (λ out_row, take 6 out_row ∈ data Samples.impacts_long) (data merged_final).
Proof.
  apply (@merge_all_data_shape Samples.files
           Samples.metadata_clean Samples.impacts_long Samples.indicators_clean 0 4 0 0).
  - split; [reflexivity|]. repeat constructor.
  - split; [reflexivity|]. repeat constructor.
  - split; [reflexivity|]. repeat constructor.
  - reflexivity.
  - reflexivity.
  - reflexivity.
  - reflexivity.
  - reflexivity.
  - reflexivity.
  - reflexivity.
  - reflexivity.
  - by_computation.
Defined.

Lemma matching_unclean_key (rk : nat) (key : value) (df : DataFrame) :
  Forall clean_key (column rk df) → ¬ clean_key key → matching rk key (data df) = [].
Proof.
  intros Hclean Hkey. unfold matching, column in *.
  rewrite Forall_fmap in Hclean.
  induction Hclean as [|row rows Hrow _ IH]; [done|].
  rewrite filter_cons_False; [done|]. simpl in Hrow. intros Heq. apply Hkey. by rewrite <- Heq.
Qed.

(** X13. Only the metadata side is cleaned.  The loaders leave every key
    of the UUID column as trimmed text or missing (X5), while the fact
    table keeps process_uuid as the impacts file spelled it.  So, in a
    merge whose four key columns hold text, a fact whose process_uuid is
    text with whitespace at an end (or a number among the text keys)
    never finds its process in cleaned process metadata: every row the
    merge returns for it ends in missing values for all process columns. *)
Theorem merge_all_data_unclean_key_unmatched `{PandasEnv}
    (metadata_df impacts_long_df indicators_df : DataFrame) (a b u v : nat)
    (row : list value) :
  well_formed impacts_long_df →
  columns impacts_long_df !! a = Some (VStr "impact_category_uuid") →
  columns impacts_long_df !! b = Some (VStr "process_uuid") →
  (str_strip1 <$> columns indicators_df) !! u = Some (VStr "UUID") →
  (str_strip1 <$> columns metadata_df) !! v = Some (VStr "UUID") →
  holds_text (column a impacts_long_df) = true →
  holds_text (column b impacts_long_df) = true →
  holds_text (column u indicators_df) = true →
  holds_text (column v metadata_df) = true →
  Forall (Forall float64_safe) (data indicators_df) →
  Forall (Forall float64_safe) (data metadata_df) →
  NoDup (output_labels metadata_df impacts_long_df indicators_df) →
  Forall clean_key (column v metadata_df) →
  row ∈ data impacts_long_df →
  ¬ clean_key (cell row b) →
  ∃ merged_final,
    returned (merge_all_data metadata_df impacts_long_df indicators_df) = Ok merged_final ∧
    data merged_final
    = data impacts_long_df ≫= joined_rows a u b v indicators_df metadata_df ∧
    joined_rows a u b v indicators_df metadata_df row
    = (λ ipart, row ++ ipart ++ replicate (length (columns metadata_df)) VNaN) <$>
        right_parts u (length (columns indicators_df)) (data indicators_df) (cell row a).
Proof.
  intros [_ Hwf] Ha Hb Hu Hv Hta Htb Htu Htv _ _ Hnd Hclean _ Hkey.
  rewrite (merge_all_data_ok _ _ _ a b u v) by done. simpl.
  eexists. split; [done|]. simpl. split; [done|].
  assert (right_parts v (length (columns metadata_df)) (data metadata_df) (cell row b)
          = [replicate (length (columns metadata_df)) VNaN]) as Hp.
  { unfold right_parts. by rewrite (matching_unclean_key _ _ _ Hclean Hkey). }
  unfold joined_rows.
  induction (right_parts u _ _ _) as [|ipart parts IH]; [done|].
  rewrite bind_cons, fmap_cons, IH, Hp. done.
Qed.

Lemma merge_all_data_unclean_key_unmatched_witness :
  ∃ merged_final,
    returned (@merge_all_data Samples.files
                Samples.metadata_clean Samples.impacts_long_untrimmed Samples.indicators_clean)
    = Ok merged_final ∧
    data merged_final
    = data Samples.impacts_long_untrimmed ≫=
        joined_rows 0 0 4 0 Samples.indicators_clean Samples.metadata_clean ∧
    joined_rows 0 0 4 0 Samples.indicators_clean Samples.metadata_clean
      [VStr "I1"; VStr "Climate"; VStr "Climat"; VStr "kg"; VStr " P1"; VInt 12]
    = (λ ipart, [VStr "I1"; VStr "Climate"; VStr "Climat"; VStr "kg"; VStr " P1"; VInt 12]
                ++ ipart ++ replicate 3 VNaN) <$>
        right_parts 0 2 (data Samples.indicators_clean) (VStr "I1").
Proof.
  apply (@merge_all_data_unclean_key_unmatched Samples.files
           Samples.metadata_clean Samples.impacts_long_untrimmed Samples.indicators_clean
           0 4 0 0).
  - split; [reflexivity|]. repeat constructor.
  - reflexivity.
  - reflexivity.
  - reflexivity.
  - reflexivity.
  - reflexivity.
  - reflexivity.
  - reflexivity.
  - reflexivity.
  - safe_cells.
  - safe_cells.
  - by_computation.
  - repeat constructor.
  - left.
  - simpl. intros Hclean. discriminate Hclean.
Defined.

(** ** The run of [main] *)

(** How a run of [main] ends: it raised before its first write; or every
    stage returned, and it wrote its four files and returned, or a write
    raised after the files before it were written. *)
Lemma main_inv `{PandasEnv} `{CsvSink} (trace : list effect)
    (r : result (DataFrame * DataFrame * DataFrame * DataFrame)) :
  main = (trace, r) →
  (written trace = [] ∧ ∃ e, r = Raise e) ∨
  (∃ metadata impacts impacts_long indicators merged,
     load_and_clean_metadata metadata_path = Ok metadata ∧
     load_and_clean_impacts impacts_path = Ok impacts ∧
     load_and_clean_indicators indicators_path = Ok indicators ∧
     reshape_impacts_to_long impacts = Ok impacts_long ∧
     returned (merge_all_data metadata impacts_long indicators) = Ok merged ∧
     let files :=
       [ ("/home/claude/metadata_clean.csv", columns metadata, data metadata);
         ("/home/claude/impacts_long.csv", columns impacts_long, data impacts_long);
         ("/home/claude/indicators_clean.csv", columns indicators, data indicators);
         ("/home/claude/merged_data.csv", columns merged, data merged) ] in
     (written trace = files ∧ r = Ok (metadata, impacts_long, indicators, merged)) ∨
     (∃ k path header rows e,
        written trace = take k files ∧ k < 4 ∧
        write_csv path header rows = Some e ∧ r = Raise e)).
Proof.
  unfold main, emit, call, io_bind, io_ret.
  destruct (load_and_clean_metadata metadata_path) as [m|] eqn:Hm;
    [|intros [= <- <-]; left; eauto].
  destruct (load_and_clean_impacts impacts_path) as [imp|] eqn:Himp;
    [|intros [= <- <-]; left; eauto].
  destruct (load_and_clean_indicators indicators_path) as [ind|] eqn:Hind;
    [|intros [= <- <-]; left; eauto].
  destruct (reshape_impacts_to_long imp) as [long|] eqn:Hlong;
    [|intros [= <- <-]; left; eauto].
  destruct (merge_all_data_clean_labels m long ind) as [-> ->];
    [by eapply load_and_clean_metadata_labels|by eapply load_and_clean_indicators_labels|].
  destruct (returned (merge_all_data m long ind)) as [g|] eqn:Hg;
    [|intros [= <- <-]; left; eauto].
  destruct (getitem g (VStr "process_uuid")) as [c1|] eqn:Hc1;
    [|intros [= <- <-]; left; eauto].
  destruct (getitem g (VStr "impact_category_uuid")) as [c2|] eqn:Hc2;
    [|intros [= <- <-]; left; eauto].
  destruct (getitem g (VStr "impact_value")) as [c3|] eqn:Hc3;
    [|intros [= <- <-]; left; eauto].
  unfold to_csv.
  destruct (write_csv "/home/claude/metadata_clean.csv" _ _) as [e|] eqn:Hw1.
  { intros [= <- <-]. left. eauto. }
  destruct (write_csv "/home/claude/impacts_long.csv" _ _) as [e|] eqn:Hw2.
  { intros [= <- <-]. right. exists m, imp, long, ind, g. split_and!; try done.
    right. exists 1. do 3 eexists. exists e. split_and!; [reflexivity|lia|exact Hw2|reflexivity]. }
  destruct (write_csv "/home/claude/indicators_clean.csv" _ _) as [e|] eqn:Hw3.
  { intros [= <- <-]. right. exists m, imp, long, ind, g. split_and!; try done.
    right. exists 2. do 3 eexists. exists e. split_and!; [reflexivity|lia|exact Hw3|reflexivity]. }
  destruct (write_csv "/home/claude/merged_data.csv" _ _) as [e|] eqn:Hw4.
  { intros [= <- <-]. right. exists m, imp, long, ind, g. split_and!; try done.
    right. exists 3. do 3 eexists. exists e. split_and!; [reflexivity|lia|exact Hw4|reflexivity]. }
  intros [= <- <-]. right. exists m, imp, long, ind, g. split_and!; try done. by left.
Qed.

(** X14. [main] saves last.  Whatever a run has written, it wrote after
    the three loaders, the reshape and the merge had all returned; so a
    run that raises in one of them leaves no file behind, and when the
    sink takes every file (and the standard output every line) a run that
    raises has written nothing at all. *)
Theorem main_writes_last `{PandasEnv} `{CsvSink} (trace : list effect)
    (r : result (DataFrame * DataFrame * DataFrame * DataFrame)) :
  main = (trace, r) →
  (written trace ≠ [] →
   ∃ metadata impacts impacts_long indicators merged,
     load_and_clean_metadata metadata_path = Ok metadata ∧
     load_and_clean_impacts impacts_path = Ok impacts ∧
     load_and_clean_indicators indicators_path = Ok indicators ∧
     reshape_impacts_to_long impacts = Ok impacts_long ∧
     returned (merge_all_data metadata impacts_long indicators) = Ok merged) ∧
  ((∀ path header rows, write_csv path header rows = None) →
   (∃ e, r = Raise e) → written trace = []).
Proof.
  intros [[Hnone _] | (m & imp & long & ind & g & Hm & Himp & Hind & Hlong & Hg & Hfiles)]%main_inv.
  - by split.
  - split; [intros _; by exists m, imp, long, ind, g|].
    intros Hsink [e ->].
    destruct Hfiles as [[_ ?] | (k & path & header & rows & e' & _ & _ & Hw & _)]; [done|].
    by rewrite Hsink in Hw.
Qed.

Lemma main_writes_last_witness :
  let run := @main Samples.main_files Samples.any_sink in
  let failed := @main Samples.numeric_uuid_run Samples.any_sink in
  written run.1 ≠ [] ∧
  (∃ metadata impacts impacts_long indicators merged,
     @load_and_clean_metadata Samples.main_files metadata_path = Ok metadata ∧
     @load_and_clean_impacts Samples.main_files impacts_path = Ok impacts ∧
     @load_and_clean_indicators Samples.main_files indicators_path = Ok indicators ∧
     @reshape_impacts_to_long Samples.main_files impacts = Ok impacts_long ∧
     returned (@merge_all_data Samples.main_files metadata impacts_long indicators)
     = Ok merged) ∧
  failed.2 = Raise AttributeError ∧
  written failed.1 = [].
Proof.
  intros run failed.
  assert (written run.1 ≠ []) as Hwritten by (vm_compute; discriminate).
  split; [exact Hwritten|]. split.
  - destruct (@main_writes_last Samples.main_files Samples.any_sink run.1 run.2) as [Hstages _].
    + apply surjective_pairing.
    + by apply Hstages.
  - split; [vm_compute; reflexivity|].
    destruct (@main_writes_last Samples.numeric_uuid_run Samples.any_sink failed.1 failed.2)
      as [_ Hnone].
    + apply surjective_pairing.
    + apply Hnone; [reflexivity|]. eexists. vm_compute. reflexivity.
Defined.

(** X15. What a complete run returns and saves.  When [main] returns, the
    four tables it returns are the table load_and_clean_metadata returned,
    the long table of the impacts file, the table
    load_and_clean_indicators returned, both exactly as loaded (the label
    assignments of merge_all_data found nothing to change), and their
    merge; and the run has written exactly four files, in this order and
    at these paths: each holds the labels and the cells of the table
    returned, without the row labels. *)
Theorem main_returns `{PandasEnv} `{CsvSink} (trace : list effect)
    (metadata impacts_long indicators merged : DataFrame) :
  main = (trace, Ok (metadata, impacts_long, indicators, merged)) →
  load_and_clean_metadata metadata_path = Ok metadata ∧
  (∃ impacts, load_and_clean_impacts impacts_path = Ok impacts ∧
              reshape_impacts_to_long impacts = Ok impacts_long) ∧
  load_and_clean_indicators indicators_path = Ok indicators ∧
  returned (merge_all_data metadata impacts_long indicators) = Ok merged ∧
  written trace
  = [ ("/home/claude/metadata_clean.csv", columns metadata, data metadata);
      ("/home/claude/impacts_long.csv", columns impacts_long, data impacts_long);
      ("/home/claude/indicators_clean.csv", columns indicators, data indicators);
      ("/home/claude/merged_data.csv", columns merged, data merged) ].
Proof.
  intros [[_ [e ?]] | (m & imp & long & ind & g & Hm & Himp & Hind & Hlong & Hg & Hfiles)]%main_inv;
    [done|].
  destruct Hfiles as [[Hw Hr] | (k & path & header & rows & e & _ & _ & _ & ?)]; [|done].
  injection Hr as <- <- <- <-. split_and!; try done. by exists imp.
Qed.

Lemma main_returns_witness :
  let run := @main Samples.main_files Samples.any_sink in
  @load_and_clean_metadata Samples.main_files metadata_path = Ok Samples.metadata_clean ∧
  (∃ impacts, @load_and_clean_impacts Samples.main_files impacts_path = Ok impacts ∧
              @reshape_impacts_to_long Samples.main_files impacts = Ok Samples.impacts_long) ∧
  @load_and_clean_indicators Samples.main_files indicators_path = Ok Samples.indicators_clean ∧
  (∃ merged,
     run.2 = Ok (Samples.metadata_clean, Samples.impacts_long, Samples.indicators_clean, merged) ∧
     written run.1
     = [ ("/home/claude/metadata_clean.csv",
          columns Samples.metadata_clean, data Samples.metadata_clean);
         ("/home/claude/impacts_long.csv",
          columns Samples.impacts_long, data Samples.impacts_long);
         ("/home/claude/indicators_clean.csv",
          columns Samples.indicators_clean, data Samples.indicators_clean);
         ("/home/claude/merged_data.csv", columns merged, data merged) ]).
Proof.
  intros run.
  assert (∃ merged, run = (run.1, Ok (Samples.metadata_clean, Samples.impacts_long,
                                      Samples.indicators_clean, merged))) as [merged Hrun].
  { eexists. vm_compute. reflexivity. }
  destruct (@main_returns Samples.main_files Samples.any_sink _ _ _ _ _ Hrun)
    as (Hm & Himp & Hind & _ & Hw).
  split_and!; [done|done|done|]. exists merged. split; [|done]. by rewrite Hrun.
Defined.


Lemma merge_inv `{PandasEnv} (left right : DataFrame) (left_on right_on : value)
    (suffixes : string * string) (out : DataFrame) :
  merge left right left_on right_on suffixes = Ok out →
  ∃ lk rk,
    locs (columns left) left_on = [lk] ∧ locs (columns right) right_on = [rk] ∧
    data out = data left ≫= join_row lk rk (length (columns right)) (data right).
Proof.
  unfold merge, get_loc.
  destruct (locs (columns right) right_on) as [|rk [|]]; try done.
  destruct (locs (columns left) left_on) as [|lk [|]]; try done. simpl.
  destruct (merge_keys_clash _ _); [done|]. simpl.
  destruct (items_overlap_with_suffix _ _ _ _) as [labels|]; [|done]. simpl.
  intros [= <-]. by exists lk, rk.
Qed.

(** The two merges behind a table [merge_all_data] returns. *)
Lemma merge_all_data_inv `{PandasEnv}
    (metadata_df impacts_long_df indicators_df merged_final : DataFrame) :
  returned (merge_all_data metadata_df impacts_long_df indicators_df) = Ok merged_final →
  ∃ merged,
    merge impacts_long_df
      {| index := index indicators_df; columns := str_strip1 <$> columns indicators_df;
         data := data indicators_df |}
      (VStr "impact_category_uuid") (VStr "UUID") ("", "_indicator") = Ok merged ∧
    merge merged
      {| index := index metadata_df; columns := str_strip1 <$> columns metadata_df;
         data := data metadata_df |}
      (VStr "process_uuid") (VStr "UUID") ("", "_process") = Ok merged_final.
Proof.
  unfold merge_all_data.
  destruct (str_strip_cases (holds_text (columns metadata_df)) (columns metadata_df))
    as [Hm|Hm]; rewrite Hm; simpl; [|done].
  rewrite set_columns_ok by apply length_fmap.
  destruct (str_strip_cases (holds_text (columns indicators_df)) (columns indicators_df))
    as [Hi|Hi]; rewrite Hi; simpl; [|done].
  rewrite set_columns_ok by apply length_fmap. simpl.
  destruct (merge impacts_long_df _ _ _ _) as [merged|]; [|done]. simpl.
  intros Hg. by exists merged.
Qed.

(** With unique keys on the right a left merge keeps the number of rows. *)
Lemma length_join_unique (lk rk width : nat) (right_rows rows : list (list value)) :
  NoDup ((λ row, cell row rk) <$> right_rows) →
  length (rows ≫= join_row lk rk width right_rows) = length rows.
Proof.
  intros Hnd. rewrite (length_bind_uniform _ _ 1); [lia|].
  intros row _. unfold join_row. rewrite length_fmap.
  destruct (right_parts_unique rk width (cell row lk) (mkDataFrame [] [] right_rows) Hnd)
    as (part & Hpart & _).
  simpl in Hpart. by rewrite Hpart.
Qed.

Lemma reshape_impacts_to_long_length `{PandasEnv} (impacts_df df_long : DataFrame) :
  reshape_impacts_to_long impacts_df = Ok df_long →
  length (data df_long) = length (data impacts_df) * length (value_cols impacts_df).
Proof.
  intros Hlong.
  destruct (decide (VStr "impact_value" ∈ columns impacts_df)) as [Hval|Hval].
  { unfold reshape_impacts_to_long, melt in Hlong. by rewrite decide_True in Hlong. }
  destruct (decide (id_cols ⊆ columns impacts_df)) as [Hids|Hids].
  2:{ by rewrite reshape_impacts_to_long_missing in Hlong. }
  destruct (reshape_impacts_to_long_rows impacts_df Hids Hval)
    as (id_locs & value_locs & _ & Hv & Hrows). simpl in Hrows.
  rewrite Hrows in Hlong. injection Hlong as <-. simpl.
  rewrite (length_bind_uniform _ _ (length (data impacts_df))).
  - rewrite length_zip, <- (Forall2_length _ _ _ Hv). lia.
  - intros [col j] _. apply length_fmap.
Qed.

(** X16. The size of what a complete run saves.  When the reader of the
    impacts file returns the table [parsed] and [main] returns, the long
    table it returns has one row for each row of [parsed] but the first
    and each column of [parsed] whose renamed label is not an identifier;
    and when no UUID stands twice in the indicator table nor in the
    process table the run returns, the merged table has exactly as many
    rows. *)
Theorem main_row_count `{PandasEnv} `{CsvSink} (trace : list effect)
    (parsed metadata impacts_long indicators merged : DataFrame) (u v : nat) :
  read_csv impacts_path "latin-1" ";" = Ok parsed →
  main = (trace, Ok (metadata, impacts_long, indicators, merged)) →
  length (data impacts_long)
  = (length (data parsed) - 1)
    * length (filter (λ c, c ∉ id_cols) (renamed <$> columns parsed)) ∧
  (columns indicators !! u = Some (VStr "UUID") → NoDup (column u indicators) →
   columns metadata !! v = Some (VStr "UUID") → NoDup (column v metadata) →
   length (data merged) = length (data impacts_long)).
Proof.
  intros Hread
    [[_ [e ?]] | (m & imp & long & ind & g & Hm & Himp & Hind & Hlong & Hg & Hfiles)]%main_inv;
    [done|].
  destruct Hfiles as [[_ Hr] | (k & path & header & rows & e & _ & _ & _ & ?)]; [|done].
  injection Hr as -> -> -> ->. split.
  - unfold load_and_clean_impacts in Himp. rewrite Hread in Himp. injection Himp as <-.
    rewrite (reshape_impacts_to_long_length _ _ Hlong). simpl.
    by rewrite length_drop.
  - intros Hu Hndu Hv Hndv.
    apply merge_all_data_inv in Hg as (mid & Hmid & Hg).
    rewrite (clean_labels_fixed _ (load_and_clean_metadata_labels _ _ Hm)) in Hg.
    rewrite (clean_labels_fixed _ (load_and_clean_indicators_labels _ _ Hind)) in Hmid.
    apply merge_inv in Hmid as (a & u' & _ & Hu' & Hmid).
    apply merge_inv in Hg as (b & v' & _ & Hv' & Hg). simpl in *.
    assert (u' = u) as ->.
    { apply elem_of_locs in Hu. rewrite Hu' in Hu. by apply list_elem_of_singleton in Hu. }
    assert (v' = v) as ->.
    { apply elem_of_locs in Hv. rewrite Hv' in Hv. by apply list_elem_of_singleton in Hv. }
    rewrite Hg, Hmid. by rewrite !length_join_unique.
Qed.

Lemma main_row_count_witness :
  let run := @main Samples.main_files Samples.any_sink in
  ∃ merged,
    run.2 = Ok (Samples.metadata_clean, Samples.impacts_long, Samples.indicators_clean, merged) ∧
    length (data Samples.impacts_long) = (3 - 1) * 2 ∧
    length (data merged) = length (data Samples.impacts_long).
Proof.
  intros run.
  assert (∃ merged, run = (run.1, Ok (Samples.metadata_clean, Samples.impacts_long,
                                      Samples.indicators_clean, merged))) as [merged Hrun].
  { eexists. vm_compute. reflexivity. }
  exists merged. split; [by rewrite Hrun|].
  destruct (@main_row_count Samples.main_files Samples.any_sink
              _ Samples.impacts_table _ _ _ _ 0 0 eq_refl Hrun) as [Hlong Hmerged].
  split; [exact Hlong|].
  apply Hmerged; [reflexivity|by_computation|reflexivity|by_computation].
Defined.


(** ** The statistics of [main] *)

Lemma locs_unique labels key j :
  labels !! j = Some key → (∀ j', labels !! j' = Some key → j' = j) →
  locs labels key = [j].
Proof.
  intros Hj Huniq. unfold locs. apply filter_unique.
  - apply NoDup_seq.
  - apply elem_of_seq. apply lookup_lt_Some in Hj. lia.
  - done.
  - intros x _ Hx. by apply Huniq.
Qed.

Lemma locs_singleton_inv labels key j :
  locs labels key = [j] →
  labels !! j = Some key ∧ ∀ j', labels !! j' = Some key → j' = j.
Proof.
  intros E. split.
  - apply elem_of_locs. rewrite E. left.
  - intros j' Hj'%elem_of_locs. rewrite E in Hj'. by apply list_elem_of_singleton in Hj'.
Qed.

(** The labels [_items_overlap_with_suffix] returns, when it returns. *)
Lemma items_overlap_with_suffix_inv `{PandasEnv} (left right : list value)
    (lsuffix rsuffix : string) (labels : list value * list value) :
  items_overlap_with_suffix left right lsuffix rsuffix = Ok labels →
  labels = (suffixed lsuffix right left, suffixed rsuffix left right).
Proof.
  unfold items_overlap_with_suffix.
  assert (∀ x, x ∈ filter (λ x, x ∈ right) left ↔ x ∈ right ∧ x ∈ left) as Hren
    by (intros x; by rewrite list_elem_of_filter).
  destruct (filter (λ x, x ∈ right) left) as [|y to_rename] eqn:E.
  - intros [= <-]. rewrite !suffixed_disjoint; [done| |].
    + intros x Hx Hx'. by apply (elem_of_nil x), Hren.
    + intros x Hx Hx'. by apply (elem_of_nil x), Hren.
  - destruct (bool_decide _); [done|]. destruct (_ || _); [done|].
    intros [= <-]. f_equal.
    + apply list_fmap_ext. intros i x Hx. apply list_elem_of_lookup_2 in Hx.
      destruct (decide (x ∈ right)) as [Hin|Hin].
      * rewrite decide_True; [done|]. by apply Hren.
      * rewrite decide_False; [done|]. rewrite Hren. tauto.
    + apply list_fmap_ext. intros i x Hx. apply list_elem_of_lookup_2 in Hx.
      destruct (decide (x ∈ left)) as [Hin|Hin].
      * rewrite decide_True; [done|]. by apply Hren.
      * rewrite decide_False; [done|]. rewrite Hren. tauto.
Qed.

Lemma merge_columns `{PandasEnv} (left right : DataFrame) (left_on right_on : value)
    (suffixes : string * string) (out : DataFrame) :
  merge left right left_on right_on suffixes = Ok out →
  columns out = suffixed suffixes.1 (columns right) (columns left)
                ++ suffixed suffixes.2 (columns left) (columns right).
Proof.
  unfold merge.
  destruct (get_loc (columns right) right_on) as [rk|]; [|done].
  destruct (get_loc (columns left) left_on) as [lk|]; [|done]. simpl.
  destruct (merge_keys_clash _ _); [done|]. simpl.
  destruct (items_overlap_with_suffix _ _ _ _) as [labels|] eqn:Hlabels; [|done]. simpl.
  intros [= <-]. simpl. by rewrite (items_overlap_with_suffix_inv _ _ _ _ _ Hlabels).
Qed.

Lemma suffixed_no_num `{PandasEnv} suffix other labels :
  Forall (λ x, is_num x = false) labels →
  Forall (λ x, is_num x = false) (suffixed suffix other labels).
Proof.
  intros Hnum. unfold suffixed. apply Forall_fmap.
  eapply Forall_impl; [exact Hnum|]. intros x Hx. simpl. by destruct (decide _).
Qed.

(** A text label of the left table that no suffix can produce names the
    same single column after a merge. *)
Lemma suffixed_keeps_label `{PandasEnv} (suffix s : string) (left right : list value) j :
  Forall (λ x, is_num x = false) left →
  s ≠ "nan" → (∀ t, t +:+ suffix ≠ s) →
  locs left (VStr s) = [j] →
  locs (suffixed "" right left ++ suffixed suffix left right) (VStr s) = [j].
Proof.
  intros Hnum Hnan Hsfx [Hj Huniq]%locs_singleton_inv. apply locs_unique.
  - apply lookup_app_l_Some. by apply suffixed_empty_lookup.
  - intros j' [Hl | [_ Hr]]%lookup_app_Some.
    + apply Huniq. unfold suffixed in Hl. rewrite list_lookup_fmap in Hl.
      destruct (left !! j') as [x|] eqn:Hx; [|done]. simpl in Hl.
      destruct (decide (x ∈ right)); [|done].
      injection Hl as Hl. rewrite append_empty_r in Hl.
      rewrite Forall_lookup in Hnum. specialize (Hnum _ _ Hx).
      destruct x as [s'| |]; simpl in *; [by subst|done|by subst].
    + exfalso. unfold suffixed in Hr. rewrite list_lookup_fmap in Hr.
      destruct (right !! _) as [x|] eqn:Hx; [|done]. simpl in Hr.
      destruct (decide (x ∈ left)) as [Hin|Hin].
      * injection Hr as Hr. by apply Hsfx in Hr.
      * injection Hr as ->. apply Hin. by eapply list_elem_of_lookup_2.
Qed.

(** The fact table's own labels name the same columns in the table
    [merge_all_data] returns. *)
Lemma merge_all_data_fact_label `{PandasEnv}
    (metadata_df impacts_long_df indicators_df merged_final : DataFrame) (s : string) j :
  returned (merge_all_data metadata_df impacts_long_df indicators_df) = Ok merged_final →
  Forall (λ x, is_num x = false) (columns impacts_long_df) →
  s ≠ "nan" → (∀ t, t +:+ "_indicator" ≠ s) → (∀ t, t +:+ "_process" ≠ s) →
  locs (columns impacts_long_df) (VStr s) = [j] →
  locs (columns merged_final) (VStr s) = [j].
Proof.
  intros Hg Hnum Hnan Hi Hp Hj.
  apply merge_all_data_inv in Hg as (mid & Hmid & Hg).
  apply merge_columns in Hmid. apply merge_columns in Hg. simpl in *.
  rewrite Hg. apply suffixed_keeps_label; [|done|done|].
  - rewrite Hmid. apply Forall_app. split; apply suffixed_no_num; [done|].
    eapply Forall_impl; [apply clean_label_str_strip1|]. by intros [| |] ?.
  - rewrite Hmid. by apply suffixed_keeps_label.
Qed.

Lemma reshape_impacts_to_long_columns `{PandasEnv} (impacts_df df_long : DataFrame) :
  reshape_impacts_to_long impacts_df = Ok df_long →
  columns df_long = id_cols ++ [VStr "process_uuid"; VStr "impact_value"].
Proof.
  intros Hlong.
  destruct (decide (VStr "impact_value" ∈ columns impacts_df)) as [Hval|Hval].
  { unfold reshape_impacts_to_long, melt in Hlong. by rewrite decide_True in Hlong. }
  destruct (decide (id_cols ⊆ columns impacts_df)) as [Hids|Hids].
  2:{ by rewrite reshape_impacts_to_long_missing in Hlong. }
  destruct (reshape_impacts_to_long_rows impacts_df Hids Hval)
    as (id_locs & value_locs & _ & _ & Hrows). simpl in Hrows.
  rewrite Hrows in Hlong. by injection Hlong as <-.
Qed.

Lemma length_append (s t : string) :
  String.length (s +:+ t) = String.length s + String.length t.
Proof.
  induction s as [|c s IH]; [done|].
  change (S (String.length (s +:+ t)) = S (String.length s + String.length t)).
  by rewrite IH.
Qed.

(** No text with the suffix [suffix] is the text [s], when the two end in
    different characters. *)
Lemma no_suffix (suffix s : string) (n : nat) (c : ascii) :
  String.get n suffix = Some c →
  String.length suffix ≤ String.length s →
  String.get (n + (String.length s - String.length suffix)) s ≠ Some c →
  ∀ t, t +:+ suffix ≠ s.
Proof.
  intros Hget Hlen Hs t Ht. apply Hs.
  pose proof (f_equal String.length Ht) as Hl. rewrite length_append in Hl.
  replace (String.length s - String.length suffix) with (String.length t) by lia.
  by rewrite <- Ht, <- String.append_correct2.
Qed.

Ltac other_ending n c :=
  apply (no_suffix _ _ n c); [reflexivity|simpl; lia|by vm_compute].

(** The three columns the statistics of [main] read are in the merged
    table, once each. *)
Lemma statistics_columns `{PandasEnv}
    (impacts metadata impacts_long indicators merged : DataFrame) :
  reshape_impacts_to_long impacts = Ok impacts_long →
  returned (merge_all_data metadata impacts_long indicators) = Ok merged →
  (∃ c, getitem merged (VStr "process_uuid") = Ok c) ∧
  (∃ c, getitem merged (VStr "impact_category_uuid") = Ok c) ∧
  (∃ c, getitem merged (VStr "impact_value") = Ok c).
Proof.
  intros Hcols%reshape_impacts_to_long_columns Hg.
  assert (Forall (λ x, is_num x = false) (columns impacts_long)) as Hnum
    by (rewrite Hcols; repeat constructor).
  unfold getitem, get_loc.
  rewrite (merge_all_data_fact_label _ _ _ _ "process_uuid" 4 Hg Hnum);
    [|done|other_ending 9 "r"%char|other_ending 7 "s"%char|by rewrite Hcols].
  rewrite (merge_all_data_fact_label _ _ _ _ "impact_category_uuid" 0 Hg Hnum);
    [|done|other_ending 9 "r"%char|other_ending 7 "s"%char|by rewrite Hcols].
  rewrite (merge_all_data_fact_label _ _ _ _ "impact_value" 5 Hg Hnum);
    [|done|other_ending 9 "r"%char|other_ending 7 "s"%char|by rewrite Hcols].
  simpl. split_and!; by eexists.
Qed.

(** X17. Where a run of [main] can fail, on a standard output that takes
    every line.  The exception a run raises is the exception of the first
    of its stages that raised (a loader, in the order metadata, impacts,
    indicators, then the reshape, then the merge) or the exception of a
    write: the statistics of lines 208-211 never raise, since the three
    columns they read stand once each in every table the merge returns
    for a long table of the reshape. *)
Theorem main_raises_from_stage `{PandasEnv} `{CsvSink} (trace : list effect) (e : exn) :
  main = (trace, Raise e) →
  load_and_clean_metadata metadata_path = Raise e ∨
  (∃ metadata,
     load_and_clean_metadata metadata_path = Ok metadata ∧
     (load_and_clean_impacts impacts_path = Raise e ∨
      ∃ impacts,
        load_and_clean_impacts impacts_path = Ok impacts ∧
        (load_and_clean_indicators indicators_path = Raise e ∨
         ∃ indicators,
           load_and_clean_indicators indicators_path = Ok indicators ∧
           (reshape_impacts_to_long impacts = Raise e ∨
            ∃ impacts_long,
              reshape_impacts_to_long impacts = Ok impacts_long ∧
              (returned (merge_all_data metadata impacts_long indicators) = Raise e ∨
               ∃ path header rows, write_csv path header rows = Some e))))).
Proof.
  unfold main, emit, call, io_bind, io_ret. intros Hrun.
  destruct (load_and_clean_metadata metadata_path) as [m|] eqn:Hm;
    [|injection Hrun as _ <-; by left].
  right. exists m. split; [done|].
  destruct (load_and_clean_impacts impacts_path) as [imp|] eqn:Himp;
    [|injection Hrun as _ <-; by left].
  right. exists imp. split; [done|].
  destruct (load_and_clean_indicators indicators_path) as [ind|] eqn:Hind;
    [|injection Hrun as _ <-; by left].
  right. exists ind. split; [done|].
  destruct (reshape_impacts_to_long imp) as [long|] eqn:Hlong;
    [|injection Hrun as _ <-; by left].
  right. exists long. split; [done|].
  destruct (merge_all_data_clean_labels m long ind) as [Hma Hia];
    [by eapply load_and_clean_metadata_labels|by eapply load_and_clean_indicators_labels|].
  rewrite Hma, Hia in Hrun.
  destruct (returned (merge_all_data m long ind)) as [g|] eqn:Hg;
    [|injection Hrun as _ <-; by left].
  right.
  destruct (statistics_columns _ _ _ _ _ Hlong Hg) as ([c1 Hc1] & [c2 Hc2] & [c3 Hc3]).
  rewrite Hc1, Hc2, Hc3 in Hrun.
  unfold to_csv in Hrun.
  destruct (write_csv "/home/claude/metadata_clean.csv" _ _) as [e1|] eqn:Hw1;
    [injection Hrun as _ <-; eauto|].
  destruct (write_csv "/home/claude/impacts_long.csv" _ _) as [e2|] eqn:Hw2;
    [injection Hrun as _ <-; eauto|].
  destruct (write_csv "/home/claude/indicators_clean.csv" _ _) as [e3|] eqn:Hw3;
    [injection Hrun as _ <-; eauto|].
  destruct (write_csv "/home/claude/merged_data.csv" _ _) as [e4|] eqn:Hw4;
    [injection Hrun as _ <-; eauto|].
  done.
Qed.


Lemma main_raises_from_stage_witness :
  let e := FileNotFoundError "/home/claude/metadata_clean.csv" in
  (@main Samples.main_files Samples.no_sink).2 = Raise e ∧
  ∃ path header rows, @write_csv Samples.no_sink path header rows = Some e.
Proof.
  intros e. split; [vm_compute; reflexivity|].
  destruct (@main_raises_from_stage Samples.main_files Samples.no_sink
              (@main Samples.main_files Samples.no_sink).1 e)
    as [Hm | (m & Hm & [Himp | (imp & Himp & [Hind | (ind & Hind &
         [Hlong | (long & Hlong & [Hg | Hw])])])])].
  - vm_compute. reflexivity.
  - vm_compute in Hm. discriminate.
  - vm_compute in Himp. discriminate.
  - vm_compute in Hind. discriminate.
  - vm_compute in Himp. injection Himp as <-. vm_compute in Hlong. discriminate.
  - vm_compute in Hm, Himp, Hind. injection Hm as <-. injection Himp as <-.
    injection Hind as <-. vm_compute in Hlong. injection Hlong as <-.
    vm_compute in Hg. discriminate.
  - exact Hw.
Defined.
